(** * go-traktdeviceauth: the device-authorization poll loop, its transport
      operations and the token transformer, embedded in Rocq.

    Two source files of the repository define package [traktdeviceauth]:
    - [src/traktdeviceauth.go]  (module [TraktDeviceAuthGo] below),
    - [src/unnamed/part_001]    (module [Part001] below).
    The declarations both files share word for word (the sentinel errors, the
    three structs, [transformInternalTokenResponse]) are embedded once.

    Conventions of the embedding:
    - Go's [int] is the 64-bit [int] of the amd64/arm64 targets of the build
      matrix; [int64] arithmetic wraps ([wrap64]).
    - [error] is [option GoError]; [None] is [nil].
    - The network, the clock and the scheduler are the environment: a record
      [Env] scripts the replies of the server, a record [World] is threaded
      through every call that has an effect. *)

From Stdlib Require Import ZArith String Ascii List Bool Lia.
From Stdlib Require Import DecimalString DecimalZ DecimalPos.
Import ListNotations.
Local Open Scope Z_scope.

(* ================================================================= *)
(** ** Machine integers *)

Definition minInt64 : Z := - 2 ^ 63.
Definition maxInt64 : Z := 2 ^ 63 - 1.

(** Two's-complement wrap-around of an [int64] result. *)
Definition wrap64 (z : Z) : Z := (z + 2 ^ 63) mod 2 ^ 64 - 2 ^ 63.

Definition in_int64 (z : Z) : Prop := minInt64 <= z <= maxInt64.

Definition in_int64b (z : Z) : bool := (minInt64 <=? z) && (z <=? maxInt64).

(* ================================================================= *)
(** ** Package [time]: [Duration] and wall-clock [Time] values *)

(** [time.Duration] is an [int64] count of nanoseconds. *)
Definition Duration : Type := Z.

Definition Second : Duration := 1000000000.
Definition minDuration : Duration := minInt64.
Definition maxDuration : Duration := maxInt64.

(** The Go expression [time.Second * time.Duration(n)] for an [int] [n]. *)
Definition seconds (n : Z) : Duration := wrap64 (Second * n).

(** The largest number of whole seconds a [Duration] can hold. *)
Definition maxDurationSeconds : Z := 9223372036.

(** [*Location]: [nil] (the zero [Time]) or [&localLoc] ([time.Local]). *)
Inductive Location : Type := LocNil | Local.

(** A [time.Time] without monotonic reading (what [time.Unix] builds):
    [ext] is the number of seconds since January 1, year 1, [nsec] the
    nanoseconds within the second. *)
Record Time : Type := mkTime { ext : Z; nsec : Z; loc : Location }.

Definition zeroTime : Time := mkTime 0 0 LocNil.

Definition unixToInternal : Z := 62135596800.
Definition internalToUnix : Z := - unixToInternal.

(** [time.Unix(sec, nsec)]. *)
Definition time_Unix (sec nsec : Z) : Time :=
  let '(sec, nsec) :=
    if (nsec <? 0) || (1000000000 <=? nsec) then
      let n := Z.quot nsec 1000000000 in
      let sec := wrap64 (sec + n) in
      let nsec := nsec - n * 1000000000 in
      if nsec <? 0 then (wrap64 (sec - 1), nsec + 1000000000) else (sec, nsec)
    else (sec, nsec) in
  mkTime (wrap64 (sec + unixToInternal)) nsec Local.

(** The pointer method [addSec] of [Time]: the sum saturates instead of wrapping. *)
Definition addSec (t : Time) (d : Z) : Time :=
  let sum := wrap64 (ext t + d) in
  if Bool.eqb (ext t <? sum) (0 <? d) then mkTime sum (nsec t) (loc t)
  else if 0 <? d then mkTime maxInt64 (nsec t) (loc t)
  else mkTime (- maxInt64) (nsec t) (loc t).

(** [Time.Add(d)]. *)
Definition Time_Add (t : Time) (d : Duration) : Time :=
  let dsec := Z.quot d 1000000000 in
  let ns := nsec t + Z.rem d 1000000000 in
  let '(dsec, ns) :=
    if 1000000000 <=? ns then (dsec + 1, ns - 1000000000)
    else if ns <? 0 then (dsec - 1, ns + 1000000000)
    else (dsec, ns) in
  addSec (mkTime (ext t) ns (loc t)) dsec.

(** [Time.Unix()]: seconds since the Unix epoch. *)
Definition Time_Unix (t : Time) : Z := wrap64 (ext t + internalToUnix).

Definition Time_Equal (t u : Time) : bool :=
  (ext t =? ext u) && (nsec t =? nsec u).

Definition Time_Before (t u : Time) : bool :=
  (ext t <? ext u) || ((ext t =? ext u) && (nsec t <? nsec u)).

(** [Time.Sub(u)]: the duration [t - u], saturated. *)
Definition Time_Sub (t u : Time) : Duration :=
  let d := wrap64 (wrap64 (wrap64 (ext t - ext u) * Second) + (nsec t - nsec u)) in
  if Time_Equal (Time_Add u d) t then d
  else if Time_Before t u then minDuration
  else maxDuration.

(** [Time.In(loc)]: the same instant shown in another location. *)
Definition Time_In (t : Time) (l : Location) : Time := mkTime (ext t) (nsec t) l.

(* ================================================================= *)
(** ** Errors *)

(** The package-level error variables. [ErrInvalidGrant] exists in
    [part_001] only. *)
Inductive Sentinel : Type :=
| ErrDeviceCodeUnclaimed        (* 400 *)
| ErrInvalidGrant               (* 401 *)
| ErrInvalidDeviceCode          (* 404 *)
| ErrForbidden                  (* 403 *)
| ErrDeviceCodeAlreadyApproved  (* 409 *)
| ErrDeviceCodeExpired          (* 410 *)
| ErrDeviceCodeDenied           (* 418 *)
| ErrPollRateTooFast            (* 429 *)
| ErrServerError                (* 500 *)
| ErrServiceOverloaded          (* 503, 504 *)
| ErrCloudflareError.           (* 520, 521, 522 *)

Definition Sentinel_eqb (a b : Sentinel) : bool :=
  match a, b with
  | ErrDeviceCodeUnclaimed, ErrDeviceCodeUnclaimed
  | ErrInvalidGrant, ErrInvalidGrant
  | ErrInvalidDeviceCode, ErrInvalidDeviceCode
  | ErrForbidden, ErrForbidden
  | ErrDeviceCodeAlreadyApproved, ErrDeviceCodeAlreadyApproved
  | ErrDeviceCodeExpired, ErrDeviceCodeExpired
  | ErrDeviceCodeDenied, ErrDeviceCodeDenied
  | ErrPollRateTooFast, ErrPollRateTooFast
  | ErrServerError, ErrServerError
  | ErrServiceOverloaded, ErrServiceOverloaded
  | ErrCloudflareError, ErrCloudflareError => true
  | _, _ => false
  end.

Definition invalidGrantText : string :=
  "the provided authorization grant is invalid, expired, revoked, does not match the redirection URI used in the authorization request, or was issued to another client".

Definition Sentinel_text (s : Sentinel) : string :=
  match s with
  | ErrDeviceCodeUnclaimed => "the user has not yet claimed the device code"
  | ErrInvalidGrant => invalidGrantText
  | ErrInvalidDeviceCode => "invalid device code"
  | ErrForbidden => "invalid API key or unapproved application"
  | ErrDeviceCodeAlreadyApproved => "device code has already been approved"
  | ErrDeviceCodeExpired => "the device code has expired, please regenerate a new one"
  | ErrDeviceCodeDenied => "the device code was denied by the user"
  | ErrPollRateTooFast => "the API is being polled too quickly"
  | ErrServerError => "the Trakt API is reporting an internal problem, please check back later"
  | ErrServiceOverloaded => "the servers are overloaded, please try again in 30 seconds"
  | ErrCloudflareError => "there is an issue with Cloudflare"
  end.

(** The two error variables of package [context]. *)
Inductive CtxErr : Type := Canceled | DeadlineExceeded.

Definition CtxErr_text (c : CtxErr) : string :=
  match c with
  | Canceled => "context canceled"
  | DeadlineExceeded => "context deadline exceeded"
  end.

(** Non-nil error values.
    - [ESentinel]: one of the package-level variables (compared by identity);
    - [EContext]: [context.Canceled] or [context.DeadlineExceeded];
    - [EForeign]: a value made inside [net/http], [io] or [encoding/json];
    - [EString]: a value made by [errors.New], or by [fmt.Errorf] without an
      operand for [%w], at a call site inside a function;
    - [EWrap]: a value with an [Unwrap] method ([fmt.Errorf] with [%w],
      [*url.Error]), its message and the error it wraps. *)
Inductive GoError : Type :=
| ESentinel (s : Sentinel)
| EContext (c : CtxErr)
| EForeign (msg : string)
| EString (msg : string)
| EWrap (msg : string) (inner : GoError).

Definition error : Type := option GoError.

(** The [Error()] method. *)
Definition Error (e : GoError) : string :=
  match e with
  | ESentinel s => Sentinel_text s
  | EContext c => CtxErr_text c
  | EForeign m => m
  | EString m => m
  | EWrap m _ => m
  end.

(** [errors.Is(err, target)] for a package-level [target]: walk the
    [Unwrap] chain and compare by identity. *)
Fixpoint Is_chain (e : GoError) (target : Sentinel) : bool :=
  match e with
  | ESentinel s => Sentinel_eqb s target
  | EWrap _ inner => Is_chain inner target
  | _ => false
  end.

Definition errors_Is (err : error) (target : Sentinel) : bool :=
  match err with
  | None => false
  | Some e => Is_chain e target
  end.

(** [fmt.Errorf(prefix + "%w", err)]. With a nil operand the verb prints
    as a bad verb and the result wraps nothing. *)
Definition Errorf_w (prefix : string) (err : error) : GoError :=
  match err with
  | Some e => EWrap (prefix ++ Error e) e
  | None => EString (prefix ++ "%!w(<nil>)")
  end.

(** The [%v] verb on an [int]. *)
Definition Sprint_int (n : Z) : string := NilZero.string_of_int (Z.to_int n).

(** [fmt.Errorf(prefix + "unexpected status code '%v'", code)]: no [%w],
    so the result is a plain error string. *)
Definition Errorf_status (prefix : string) (code : Z) : GoError :=
  EString (prefix ++ "unexpected status code '" ++ Sprint_int code ++ "'").

(* ================================================================= *)
(** ** The three structs *)

Module CodeResponse.
Record t : Type := mk {
  DeviceCode : string;
  UserCode : string;
  VerificationURL : string;
  ExpiresIn : Z;   (* How long the code will last in seconds *)
  Interval : Z     (* The interval in seconds that the application is allowed to poll at *)
}.
Definition zero : t := mk "" "" "" 0 0.
End CodeResponse.

Module TokenResponse.
Record t : Type := mk {
  AccessToken : string;
  TokenType : string;
  ExpiresAt : Time;
  RefreshToken : string;
  Scope : string;
  CreatedAt : Time
}.
Definition zero : t := mk "" "" zeroTime "" "" zeroTime.
End TokenResponse.

Module internalTokenResponse.
Record t : Type := mk {
  AccessToken : string;
  TokenType : string;
  ExpiresIn : Z;
  RefreshToken : string;
  Scope : string;
  CreatedAt : Z    (* The seconds since the epoch when the token was created (GMT). *)
}.
Definition zero : t := mk "" "" 0 "" "" 0.
End internalTokenResponse.

(* ================================================================= *)
(** ** The response transformer *)

Definition transformInternalTokenResponse
    (internal : internalTokenResponse.t) : TokenResponse.t :=
  let CreatedAt := time_Unix (internalTokenResponse.CreatedAt internal) 0 in
  {| TokenResponse.AccessToken := internalTokenResponse.AccessToken internal;
     TokenResponse.TokenType := internalTokenResponse.TokenType internal;
     TokenResponse.RefreshToken := internalTokenResponse.RefreshToken internal;
     TokenResponse.Scope := internalTokenResponse.Scope internal;
     TokenResponse.CreatedAt := CreatedAt;
     TokenResponse.ExpiresAt :=
       Time_Add CreatedAt (seconds (internalTokenResponse.ExpiresIn internal)) |}.

(* ================================================================= *)
(** ** Package [encoding/json]: documents as the decoder reads them *)

Module JSON.
Local Open Scope string_scope.

(** The double quote character. *)
Definition dq : ascii := ascii_of_nat 34.
Definition backslash : ascii := ascii_of_nat 92.

#[warnings="-register-all"]
Inductive value : Type :=
| JNull
| JBool (b : bool)
| JInt (z : Z)       (* a number literal with neither fraction nor exponent *)
| JReal              (* a number literal with a fraction or an exponent *)
| JString (s : string)
| JArray (l : list value)
| JObject (members : list (string * value)).

(** Outcome of a parser: a value and the rest of the input, a syntax
    error, or recursion budget exhausted. The budget of [parse] is never
    used up (lemma [parse_decides]); the third outcome is kept apart so
    that a syntax error is a definite verdict. *)
Inductive result (A : Type) : Type :=
| Ok (a : A) (rest : string)
| Syntax
| Fuel.
Arguments Ok {A} a rest.
Arguments Syntax {A}.
Arguments Fuel {A}.

Definition is_ws (c : ascii) : bool :=
  let n := nat_of_ascii c in
  Nat.eqb n 32 || Nat.eqb n 9 || Nat.eqb n 10 || Nat.eqb n 13.

Fixpoint skip_ws (s : string) : string :=
  match s with
  | String c r => if is_ws c then skip_ws r else s
  | EmptyString => s
  end.

(** The rest of [s] after its first character, when that is [c]. *)
Definition starts_with (c : ascii) (s : string) : option string :=
  match s with
  | String d r => if Ascii.eqb d c then Some r else None
  | EmptyString => None
  end.

Definition digit_of (c : ascii) : option Z :=
  let n := nat_of_ascii c in
  if Nat.leb 48 n && Nat.leb n 57 then Some (Z.of_nat (n - 48)) else None.

Definition hex_of (c : ascii) : option Z :=
  let n := nat_of_ascii c in
  if Nat.leb 48 n && Nat.leb n 57 then Some (Z.of_nat (n - 48))
  else if Nat.leb 97 n && Nat.leb n 102 then Some (Z.of_nat (n - 87))
  else if Nat.leb 65 n && Nat.leb n 70 then Some (Z.of_nat (n - 55))
  else None.

Definition hex4 (a b c d : ascii) : option Z :=
  match hex_of a, hex_of b, hex_of c, hex_of d with
  | Some x, Some y, Some z, Some w => Some (((x * 16 + y) * 16 + z) * 16 + w)
  | _, _, _, _ => None
  end.

Definition byte (z : Z) : ascii := ascii_of_nat (Z.to_nat z).

(** UTF-8 encoding of a code point. *)
Definition utf8 (cp : Z) : string :=
  if (cp <? 128)%Z then String (byte cp) ""
  else if (cp <? 2048)%Z then
    String (byte (192 + cp / 64)) (String (byte (128 + cp mod 64)) "")
  else if (cp <? 65536)%Z then
    String (byte (224 + cp / 4096))
      (String (byte (128 + (cp / 64) mod 64)) (String (byte (128 + cp mod 64)) ""))
  else
    String (byte (240 + cp / 262144))
      (String (byte (128 + (cp / 4096) mod 64))
        (String (byte (128 + (cp / 64) mod 64)) (String (byte (128 + cp mod 64)) ""))).

Definition replacement : string := utf8 65533.

Definition is_high_surrogate (cp : Z) : bool := ((55296 <=? cp) && (cp <? 56320))%Z.
Definition is_low_surrogate (cp : Z) : bool := ((56320 <=? cp) && (cp <? 57344))%Z.

(** The low half of a surrogate pair at the head of [s], if there is one. *)
Definition low_half (s : string) : option Z :=
  match s with
  | String b (String u (String h1 (String h2 (String h3 (String h4 _))))) =>
      if Ascii.eqb b backslash && Ascii.eqb u "u" then
        match hex4 h1 h2 h3 h4 with
        | Some lo => if is_low_surrogate lo then Some lo else None
        | None => None
        end
      else None
  | _ => None
  end.

Definition simple_escape (c : ascii) : option ascii :=
  let n := nat_of_ascii c in
  if Nat.eqb n 34 then Some dq
  else if Nat.eqb n 92 then Some backslash
  else if Nat.eqb n 47 then Some "/"%char
  else if Nat.eqb n 98 then Some (ascii_of_nat 8)
  else if Nat.eqb n 102 then Some (ascii_of_nat 12)
  else if Nat.eqb n 110 then Some (ascii_of_nat 10)
  else if Nat.eqb n 114 then Some (ascii_of_nat 13)
  else if Nat.eqb n 116 then Some (ascii_of_nat 9)
  else None.

(** The characters of a string literal after its opening quote, up to and
    including the closing quote; escapes are decoded. Bytes above 127 are
    copied as they are (the Go decoder also replaces ill-formed UTF-8 by
    U+FFFD). *)
Fixpoint parse_chars (s : string) : option (string * string) :=
  match s with
  | EmptyString => None
  | String c r =>
      if Ascii.eqb c dq then Some ("", r)
      else if Ascii.eqb c backslash then
        match r with
        | String e r1 =>
            if Ascii.eqb e "u" then
              match r1 with
              | String h1 (String h2 (String h3 (String h4 r2))) =>
                  match hex4 h1 h2 h3 h4 with
                  | None => None
                  | Some cp =>
                      if is_high_surrogate cp then
                        match r2 with
                        | String _ (String _ (String _ (String _ (String _ (String _ r3))))) =>
                            match low_half r2 with
                            | Some lo =>
                                match parse_chars r3 with
                                | Some (t, rest) =>
                                    Some (utf8 (65536 + (cp - 55296) * 1024 + (lo - 56320)) ++ t, rest)
                                | None => None
                                end
                            | None =>
                                match parse_chars r2 with
                                | Some (t, rest) => Some (replacement ++ t, rest)
                                | None => None
                                end
                            end
                        | _ =>
                            match parse_chars r2 with
                            | Some (t, rest) => Some (replacement ++ t, rest)
                            | None => None
                            end
                        end
                      else
                        match parse_chars r2 with
                        | Some (t, rest) =>
                            Some ((if is_low_surrogate cp then replacement else utf8 cp) ++ t, rest)
                        | None => None
                        end
                  end
              | _ => None
              end
            else
              match simple_escape e with
              | Some d =>
                  match parse_chars r1 with
                  | Some (t, rest) => Some (String d t, rest)
                  | None => None
                  end
              | None => None
              end
        | EmptyString => None
        end
      else if Nat.ltb (nat_of_ascii c) 32 then None
      else
        match parse_chars r with
        | Some (t, rest) => Some (String c t, rest)
        | None => None
        end
  end.

(** A maximal run of decimal digits: its value, its length, the rest. *)
Fixpoint digits (s : string) (acc : Z) (n : nat) : Z * nat * string :=
  match s with
  | String c r =>
      match digit_of c with
      | Some d => digits r (acc * 10 + d) (S n)
      | None => (acc, n, s)
      end
  | EmptyString => (acc, n, s)
  end.

(** The optional fraction and exponent after the integer part. *)
Definition parse_tail (neg : bool) (v : Z) (s : string) : option (value * string) :=
  let frac :=
    match starts_with "." s with
    | Some r =>
        let '(_, n, r') := digits r 0 0 in
        if Nat.eqb n 0 then None else Some (true, r')
    | None => Some (false, s)
    end in
  match frac with
  | None => None
  | Some (has_frac, s1) =>
      let exp :=
        match s1 with
        | String c r =>
            if Ascii.eqb c "e" || Ascii.eqb c "E" then
              let r0 :=
                match r with
                | String sg r' => if Ascii.eqb sg "+" || Ascii.eqb sg "-" then r' else r
                | EmptyString => r
                end in
              let '(_, n, r') := digits r0 0 0 in
              if Nat.eqb n 0 then None else Some (true, r')
            else Some (false, s1)
        | EmptyString => Some (false, s1)
        end in
      match exp with
      | None => None
      | Some (has_exp, s2) =>
          Some (if has_frac || has_exp then JReal else JInt (if neg then - v else v), s2)
      end
  end.

Definition parse_number (s : string) : option (value * string) :=
  let '(neg, s1) :=
    match starts_with "-" s with
    | Some r => (true, r)
    | None => (false, s)
    end in
  match s1 with
  | String c r =>
      if Ascii.eqb c "0" then parse_tail neg 0 r
      else
        match digit_of c with
        | Some _ => let '(v, _, r') := digits s1 0 0 in parse_tail neg v r'
        | None => None
        end
  | EmptyString => None
  end.

(** The rest of [s] after its prefix [p]. *)
Fixpoint strip_prefix (p s : string) : option string :=
  match p with
  | EmptyString => Some s
  | String a p' =>
      match s with
      | String b s' => if Ascii.eqb a b then strip_prefix p' s' else None
      | EmptyString => None
      end
  end.

Definition lift {A} (o : option (A * string)) : result A :=
  match o with
  | Some (a, r) => Ok a r
  | None => Syntax
  end.

(** One value at the head of [s] (leading white space already skipped). *)
Fixpoint parse_value (fuel : nat) (s : string) : result value :=
  match fuel with
  | O => Fuel
  | S f =>
      match s with
      | EmptyString => Syntax
      | String c r =>
          if Ascii.eqb c "{" then
            match starts_with "}" (skip_ws r) with
            | Some r' => Ok (JObject []) r'
            | None =>
                match parse_members f (skip_ws r) with
                | Ok ms r' => Ok (JObject ms) r'
                | Syntax => Syntax
                | Fuel => Fuel
                end
            end
          else if Ascii.eqb c "[" then
            match starts_with "]" (skip_ws r) with
            | Some r' => Ok (JArray []) r'
            | None =>
                match parse_elements f (skip_ws r) with
                | Ok vs r' => Ok (JArray vs) r'
                | Syntax => Syntax
                | Fuel => Fuel
                end
            end
          else if Ascii.eqb c dq then
            match parse_chars r with
            | Some (t, r') => Ok (JString t) r'
            | None => Syntax
            end
          else if Ascii.eqb c "t" then
            match strip_prefix "true" s with Some r' => Ok (JBool true) r' | None => Syntax end
          else if Ascii.eqb c "f" then
            match strip_prefix "false" s with Some r' => Ok (JBool false) r' | None => Syntax end
          else if Ascii.eqb c "n" then
            match strip_prefix "null" s with Some r' => Ok JNull r' | None => Syntax end
          else lift (parse_number s)
      end
  end

(** [value (, value)* ]] with the white space around each value. *)
with parse_elements (fuel : nat) (s : string) : result (list value) :=
  match fuel with
  | O => Fuel
  | S f =>
      match parse_value f s with
      | Ok v r =>
          match skip_ws r with
          | String c r' =>
              if Ascii.eqb c "]" then Ok [v] r'
              else if Ascii.eqb c "," then
                match parse_elements f (skip_ws r') with
                | Ok vs r'' => Ok (v :: vs) r''
                | Syntax => Syntax
                | Fuel => Fuel
                end
              else Syntax
          | EmptyString => Syntax
          end
      | Syntax => Syntax
      | Fuel => Fuel
      end
  end

(** [string : value (, string : value)* }]. *)
with parse_members (fuel : nat) (s : string) : result (list (string * value)) :=
  match fuel with
  | O => Fuel
  | S f =>
      match s with
      | String q r =>
          if Ascii.eqb q dq then
            match parse_chars r with
            | Some (k, r1) =>
                match starts_with ":" (skip_ws r1) with
                | Some r2 =>
                    match parse_value f (skip_ws r2) with
                    | Ok v r3 =>
                        match skip_ws r3 with
                        | String c r4 =>
                            if Ascii.eqb c "}" then Ok [(k, v)] r4
                            else if Ascii.eqb c "," then
                              match parse_members f (skip_ws r4) with
                              | Ok ms r5 => Ok ((k, v) :: ms) r5
                              | Syntax => Syntax
                              | Fuel => Fuel
                              end
                            else Syntax
                        | EmptyString => Syntax
                        end
                    | Syntax => Syntax
                    | Fuel => Fuel
                    end
                | None => Syntax
                end
            | None => Syntax
            end
          else Syntax
      | EmptyString => Syntax
      end
  end.

(** A whole document: one value between optional white space. *)
Definition parse (s : string) : result value :=
  match parse_value (2 * String.length s + 2) (skip_ws s) with
  | Ok v r =>
      match skip_ws r with
      | EmptyString => Ok v ""
      | _ => Syntax
      end
  | Syntax => Syntax
  | Fuel => Fuel
  end.

(** [json.Valid]. *)
Definition Valid (s : string) : bool :=
  match parse s with
  | Ok _ _ => true
  | _ => false
  end.

End JSON.

(* ================================================================= *)
(** ** [json.Unmarshal] into the structs of the package *)

Module Unmarshal.
Import JSON.
Local Open Scope string_scope.

Definition lower (c : ascii) : ascii :=
  let n := nat_of_ascii c in
  if Nat.leb 65 n && Nat.leb n 90 then ascii_of_nat (n + 32) else c.

Fixpoint fold (s : string) : string :=
  match s with
  | String c r => String (lower c) (fold r)
  | EmptyString => EmptyString
  end.

(** A key of the document selects the field whose (lower-case) tag it
    equals up to ASCII case. (The decoder also folds the two non-ASCII
    letters that lower to [k] and [s]; they are left out.) *)
Definition key_is (tag key : string) : bool := String.eqb (fold key) tag.

(** What storing a value into a field does: set it, leave it (a [null]),
    or refuse it (an [UnmarshalTypeError]). *)
Inductive store (A : Type) : Type :=
| Put (a : A)
| Leave
| Refuse.
Arguments Put {A} a.
Arguments Leave {A}.
Arguments Refuse {A}.

Definition into_string (v : value) : store string :=
  match v with
  | JString s => Put s
  | JNull => Leave
  | _ => Refuse
  end.

Definition into_int (v : value) : store Z :=
  match v with
  | JInt z => if in_int64b z then Put z else Refuse
  | JNull => Leave
  | _ => Refuse
  end.

(** Messages of the decoder's errors, abbreviated. *)
Definition SyntaxError : GoError := EForeign "json: syntax error".
Definition UnmarshalTypeError (field : string) : GoError :=
  EForeign ("json: cannot unmarshal value into Go struct field " ++ field).

Section Struct.
Variable T : Type.
(** [assign key v t]: [inr] the struct after the member [key: v] was
    stored, [inl tag] when the value does not fit the field [tag]. *)
Variable assign : string -> value -> T -> string + T.

(** The members in document order; a later duplicate key overwrites, a
    refused value is skipped and the first refusal is remembered. *)
Fixpoint assign_all (ms : list (string * value)) (t : T) (bad : option string)
    : T * option string :=
  match ms with
  | [] => (t, bad)
  | (k, v) :: ms' =>
      match assign k v t with
      | inr t' => assign_all ms' t' bad
      | inl tag =>
          assign_all ms' t (match bad with None => Some tag | Some _ => bad end)
      end
  end.

Definition into_struct (data : string) (t : T) : T * error :=
  match parse data with
  | Ok (JObject ms) _ =>
      let '(t', bad) := assign_all ms t None in
      (t', match bad with Some tag => Some (UnmarshalTypeError tag) | None => None end)
  | Ok JNull _ => (t, None)
  | Ok _ _ => (t, Some (UnmarshalTypeError ""))
  | Syntax | Fuel => (t, Some SyntaxError)
  end.
End Struct.

Definition put {A T : Type} (tag : string) (s : store A) (set : A -> T) (t : T) : string + T :=
  match s with
  | Put a => inr (set a)
  | Leave => inr t
  | Refuse => inl tag
  end.

Definition assign_CodeResponse (key : string) (v : value) (t : CodeResponse.t)
    : string + CodeResponse.t :=
  let '(CodeResponse.mk dc uc vu ei iv) := t in
  if key_is "device_code" key then
    put "device_code" (into_string v) (fun s => CodeResponse.mk s uc vu ei iv) t
  else if key_is "user_code" key then
    put "user_code" (into_string v) (fun s => CodeResponse.mk dc s vu ei iv) t
  else if key_is "verification_url" key then
    put "verification_url" (into_string v) (fun s => CodeResponse.mk dc uc s ei iv) t
  else if key_is "expires_in" key then
    put "expires_in" (into_int v) (fun z => CodeResponse.mk dc uc vu z iv) t
  else if key_is "interval" key then
    put "interval" (into_int v) (fun z => CodeResponse.mk dc uc vu ei z) t
  else inr t.

Definition assign_internalTokenResponse (key : string) (v : value)
    (t : internalTokenResponse.t) : string + internalTokenResponse.t :=
  let '(internalTokenResponse.mk at_ ty ei rt sc ca) := t in
  if key_is "access_token" key then
    put "access_token" (into_string v) (fun s => internalTokenResponse.mk s ty ei rt sc ca) t
  else if key_is "token_type" key then
    put "token_type" (into_string v) (fun s => internalTokenResponse.mk at_ s ei rt sc ca) t
  else if key_is "expires_in" key then
    put "expires_in" (into_int v) (fun z => internalTokenResponse.mk at_ ty z rt sc ca) t
  else if key_is "refresh_token" key then
    put "refresh_token" (into_string v) (fun s => internalTokenResponse.mk at_ ty ei s sc ca) t
  else if key_is "scope" key then
    put "scope" (into_string v) (fun s => internalTokenResponse.mk at_ ty ei rt s ca) t
  else if key_is "created_at" key then
    put "created_at" (into_int v) (fun z => internalTokenResponse.mk at_ ty ei rt sc z) t
  else inr t.

(** [json.Unmarshal(b, &codeResp)] on a [CodeResponse]. *)
Definition CodeResponse_ (b : string) (codeResp : CodeResponse.t)
    : CodeResponse.t * error :=
  into_struct CodeResponse.t assign_CodeResponse b codeResp.

(** [json.Unmarshal(b, &respStruct)] on an [internalTokenResponse]. *)
Definition internalTokenResponse_ (b : string) (respStruct : internalTokenResponse.t)
    : internalTokenResponse.t * error :=
  into_struct internalTokenResponse.t assign_internalTokenResponse b respStruct.

End Unmarshal.

(* ================================================================= *)
(** ** Contexts, the network and the clock *)

(** A [context.Context]: the instant of its deadline, if it has one, and
    the instant at which its owner cancels it, if ever. Instants are
    nanoseconds on the clock of [World]. *)
Record Context : Type := mkContext {
  deadline : option Z;
  canceled_at : option Z
}.

(** [context.Background()]. *)
Definition Background : Context := mkContext None None.

(** [context.WithDeadline(parent, d)]: the earlier deadline wins. (The
    [cancel] function it returns is deferred to the end of the poll and
    has no effect before.) *)
Definition WithDeadline (parent : Context) (d : Z) : Context :=
  mkContext
    (match deadline parent with
     | Some p => Some (Z.min p d)
     | None => Some d
     end)
    (canceled_at parent).

(** The instant at which [ctx.Done()] is closed. *)
Definition done_at (ctx : Context) : option Z :=
  match deadline ctx, canceled_at ctx with
  | Some d, Some c => Some (Z.min d c)
  | Some d, None => Some d
  | None, Some c => Some c
  | None, None => None
  end.

(** [ctx.Err()] once the context is done. *)
Definition Err (ctx : Context) : CtxErr :=
  match deadline ctx, canceled_at ctx with
  | Some d, Some c => if c <? d then Canceled else DeadlineExceeded
  | None, Some _ => Canceled
  | _, _ => DeadlineExceeded
  end.

Record Request : Type := mkRequest {
  Method : string;
  URL : string;
  Header : list (string * string);
  ReqBody : string
}.

(** [req.Header.Set(key, value)]. *)
Definition Header_Set (req : Request) (key val : string) : Request :=
  mkRequest (Method req) (URL req)
    ((key, val) :: filter (fun kv => negb (String.eqb (fst kv) key)) (Header req))
    (ReqBody req).

(** What [io.ReadAll(resp.Body)] will give. *)
Inductive BodyContent : Type :=
| Bytes (b : string)
| ReadError (msg : string).

Record Response : Type := mkResponse {
  StatusCode : Z;
  Body : BodyContent
}.

(** What the network does with one request. *)
Inductive Outcome : Type :=
| NetError (msg : string)       (* connection refused, timeout, TLS failure *)
| Respond (resp : Response).

Record Reply : Type := mkReply {
  latency : Z;                  (* nanoseconds until the outcome is known *)
  outcome : Outcome
}.

(** The environment of a run.
    - [TraktAPIBaseUrl]: the package variable of [part_001];
    - [url_error]: the error of [url.Parse] on a URL, if it has one;
    - [server n req]: the reply to [req] when [n] requests went before;
    - [tie n]: whether [ctx.Done()] wins the [n]-th [select] when both
      of its channels become ready at the same instant. *)
Record Env : Type := mkEnv {
  TraktAPIBaseUrl : string;
  url_error : string -> option string;
  server : nat -> Request -> Reply;
  tie : nat -> bool
}.

(** The state the calls act on.
    - [now]: the clock, in nanoseconds;
    - [sent]: the requests submitted so far, each with its instant;
    - [live_bodies]: response bodies handed out and not closed;
    - [selects]: the number of [select] statements executed. *)
Record World : Type := mkWorld {
  now : Z;
  sent : list (Z * Request);
  live_bodies : nat;
  selects : nat
}.

Definition world0 : World := mkWorld 0 [] 0 0.

(** [http.NewRequestWithContext(ctx, method, url, body)] with a valid
    method and a non-nil context: it fails when the URL does not parse. *)
Definition NewRequestWithContext (env : Env) (method url : string) (body : string)
    : GoError + Request :=
  match url_error env url with
  | Some msg => inl (EForeign msg)
  | None => inr (mkRequest method url [] body)
  end.

(** A string between double quotes, as the verb [%s] between two quotes in a format prints it. *)
Definition quoted (s : string) : string :=
  String JSON.dq (s ++ String JSON.dq EmptyString)%string.

(** The [url.Error] that [http.Client.Do] returns. *)
Definition url_Error (req : Request) (inner : GoError) : GoError :=
  EWrap ("Post " ++ quoted (URL req) ++ ": " ++ Error inner)%string inner.

(** [http.DefaultClient.Do(req)] for a request made with [ctx].
    A context that is already done fails the call before anything is
    sent; one that becomes done before the reply fails it at that
    instant; otherwise the reply of the server decides. *)
Definition Do (env : Env) (ctx : Context) (req : Request) (w : World)
    : (GoError + Response) * World :=
  let expired :=
    match done_at ctx with
    | Some d => d <=? now w
    | None => false
    end in
  if expired then (inl (url_Error req (EContext (Err ctx))), w)
  else
    let r := server env (length (sent w)) req in
    let arrival := now w + Z.max 0 (latency r) in
    let sent' := sent w ++ [(now w, req)] in
    let cut :=
      match done_at ctx with
      | Some d => if d <? arrival then Some d else None
      | None => None
      end in
    match cut with
    | Some d =>
        (inl (url_Error req (EContext (Err ctx))),
         mkWorld d sent' (live_bodies w) (selects w))
    | None =>
        match outcome r with
        | NetError msg =>
            (inl (url_Error req (EForeign msg)),
             mkWorld arrival sent' (live_bodies w) (selects w))
        | Respond resp =>
            (inr resp, mkWorld arrival sent' (S (live_bodies w)) (selects w))
        end
    end.

(** [resp.Body.Close()]. *)
Definition Body_Close (w : World) : World :=
  mkWorld (now w) (sent w) (pred (live_bodies w)) (selects w).

(** [io.ReadAll(resp.Body)]. *)
Definition ReadAll (resp : Response) : string * error :=
  match Body resp with
  | Bytes b => (b, None)
  | ReadError msg => (EmptyString, Some (EForeign msg))
  end.

(** The two channels of the [select] in the poll loop. *)
Inductive Selected : Type := TimerFired | CtxDone.

(** [select] on [time.After(d)] and [ctx.Done()]: the channel that is
    ready first is taken and the clock moves to that instant. A timer
    with a non-positive duration is ready at once. *)
Definition select (env : Env) (ctx : Context) (d : Duration) (w : World)
    : Selected * World :=
  let fire := now w + Z.max 0 d in
  let at_ (t : Z) := mkWorld t (sent w) (live_bodies w) (S (selects w)) in
  match done_at ctx with
  | None => (TimerFired, at_ fire)
  | Some dn =>
      let dn := Z.max dn (now w) in
      if dn <? fire then (CtxDone, at_ dn)
      else if fire <? dn then (TimerFired, at_ fire)
      else if tie env (selects w) then (CtxDone, at_ dn)
      else (TimerFired, at_ fire)
  end.


(** [defer cleanup()] at the head of [body]: the cleanup runs when the
    body returns, whichever [return] it leaves by. *)
Definition deferred {A : Type} (cleanup : World -> World)
    (body : World -> A * World) (w : World) : A * World :=
  let '(a, w') := body w in (a, cleanup w').

(** The error the poll loop returns on [ctx.Done()]. *)
Definition exceeded_context : GoError :=
  EString "PollForAuthToken: could not retrieve auth token, exceeded context".

(** Results of the operations. *)
Definition fails {T : Type} (zero : T) (e : GoError) : T * error := (zero, Some e).

(* ================================================================= *)
(** ** [src/unnamed/part_001] *)

Module Part001.
Local Open Scope string_scope.

(** GenerateNewCodeContext reaches out to the Trakt API to acquire a
    claimable code. *)
Definition GenerateNewCodeContext (env : Env) (ctx : Context) (clientID : string)
    (w : World) : (CodeResponse.t * error) * World :=
  let dataBuf := "{" ++ quoted "client_id" ++ ": " ++ quoted clientID ++ "}" in
  match NewRequestWithContext env "POST" (TraktAPIBaseUrl env ++ "/oauth/device/code") dataBuf with
  | inl err => (fails CodeResponse.zero (Errorf_w "GenerateNewCode: " (Some err)), w)
  | inr req =>
      let req := Header_Set req "Content-Type" "application/json" in
      let req := Header_Set req "Trakt-API-Version" "2" in
      match Do env ctx req w with
      | (inl err, w) => (fails CodeResponse.zero (Errorf_w "GenerateNewCode: " (Some err)), w)
      | (inr resp, w) =>
          deferred Body_Close (fun w =>
            let code := StatusCode resp in
            let switch :=
              if (code =? 200)%Z then None
              else if (code =? 403)%Z then Some (ESentinel ErrForbidden)
              else if (code =? 500)%Z then Some (ESentinel ErrServerError)
              else if ((code =? 503) || (code =? 504))%Z then Some (ESentinel ErrServiceOverloaded)
              else if ((code =? 520) || (code =? 521) || (code =? 522))%Z then
                Some (ESentinel ErrCloudflareError)
              else Some (Errorf_status "RequestToken: " code) in
            match switch with
            | Some e => (fails CodeResponse.zero e, w)
            | None =>
                let '(b, err) := ReadAll resp in
                match err with
                | Some _ => (fails CodeResponse.zero (Errorf_w "GenerateNewCode: " err), w)
                | None =>
                    let '(codeResp, err) := Unmarshal.CodeResponse_ b CodeResponse.zero in
                    match err with
                    | Some _ => (fails CodeResponse.zero (Errorf_w "GenerateNewCode: " err), w)
                    | None => ((codeResp, None), w)
                    end
                end
            end) w
      end
  end.

(** GenerateNewCode wraps GenerateNewCodeContext using context.Background(). *)
Definition GenerateNewCode (env : Env) (clientID : string) (w : World) :=
  GenerateNewCodeContext env Background clientID w.

(** RequestTokenContext returns a TokenResponse if the provided code has
    been claimed by the user, and otherwise an error value which details
    the issue. *)
Definition RequestTokenContext (env : Env) (ctx : Context) (codeResp : CodeResponse.t)
    (clientID clientSecret : string) (w : World) : (TokenResponse.t * error) * World :=
  let dataBuf :=
    "{" ++ quoted "code" ++ ": " ++ quoted (CodeResponse.DeviceCode codeResp)
        ++ ", " ++ quoted "client_id" ++ ": " ++ quoted clientID
        ++ ", " ++ quoted "client_secret" ++ ": " ++ quoted clientSecret ++ "}" in
  match NewRequestWithContext env "POST" (TraktAPIBaseUrl env ++ "/oauth/device/token") dataBuf with
  | inl err => (fails TokenResponse.zero (Errorf_w "RequestToken: " (Some err)), w)
  | inr req =>
      let req := Header_Set req "Content-Type" "application/json" in
      let req := Header_Set req "Trakt-API-Version" "2" in
      match Do env ctx req w with
      | (inl err, w) => (fails TokenResponse.zero (Errorf_w "RequestToken: " (Some err)), w)
      | (inr resp, w) =>
          deferred Body_Close (fun w =>
            let code := StatusCode resp in
            let switch :=
              if (code =? 200)%Z then None
              else if (code =? 400)%Z then Some (ESentinel ErrDeviceCodeUnclaimed)
              else if (code =? 403)%Z then Some (ESentinel ErrForbidden)
              else if (code =? 404)%Z then Some (ESentinel ErrInvalidDeviceCode)
              else if (code =? 409)%Z then Some (ESentinel ErrDeviceCodeAlreadyApproved)
              else if (code =? 410)%Z then Some (ESentinel ErrDeviceCodeExpired)
              else if (code =? 418)%Z then Some (ESentinel ErrDeviceCodeDenied)
              else if (code =? 429)%Z then Some (ESentinel ErrPollRateTooFast)
              else if (code =? 500)%Z then Some (ESentinel ErrServerError)
              else if ((code =? 503) || (code =? 504))%Z then Some (ESentinel ErrServiceOverloaded)
              else if ((code =? 520) || (code =? 521) || (code =? 522))%Z then
                Some (ESentinel ErrCloudflareError)
              else Some (Errorf_status "RequestToken: " code) in
            match switch with
            | Some e => (fails TokenResponse.zero e, w)
            | None =>
                let '(b, err) := ReadAll resp in
                match err with
                | Some _ => (fails TokenResponse.zero (Errorf_w "RequestToken: " err), w)
                | None =>
                    let '(respStruct, err) :=
                      Unmarshal.internalTokenResponse_ b internalTokenResponse.zero in
                    match err with
                    | Some _ => (fails TokenResponse.zero (Errorf_w "RequestToken: " err), w)
                    | None => ((transformInternalTokenResponse respStruct, None), w)
                    end
                end
            end) w
      end
  end.

(** RequestToken wraps RequestTokenContext using context.Background(). *)
Definition RequestToken (env : Env) (codeResp : CodeResponse.t)
    (clientID clientSecret : string) (w : World) :=
  RequestTokenContext env Background codeResp clientID clientSecret w.

(** RefreshAccessTokenContext takes the refresh token from a previous
    TokenResponse and creates a new one. *)
Definition RefreshAccessTokenContext (env : Env) (ctx : Context)
    (refreshToken clientID clientSecret : string) (w : World)
    : (TokenResponse.t * error) * World :=
  let dataBuf :=
    "{" ++ quoted "refresh_token" ++ ": " ++ quoted refreshToken
        ++ ", " ++ quoted "client_id" ++ ": " ++ quoted clientID
        ++ ", " ++ quoted "client_secret" ++ ": " ++ quoted clientSecret
        ++ ", " ++ quoted "redirect_uri" ++ ": " ++ quoted "urn:ietf:wg:oauth:2.0:oob"
        ++ ", " ++ quoted "grant_type" ++ ": " ++ quoted "refresh_token" ++ "}" in
  match NewRequestWithContext env "POST" (TraktAPIBaseUrl env ++ "/oauth/token") dataBuf with
  | inl err => (fails TokenResponse.zero (Errorf_w "RefreshToken: " (Some err)), w)
  | inr req =>
      let req := Header_Set req "Content-Type" "application/json" in
      let req := Header_Set req "Trakt-API-Version" "2" in
      match Do env ctx req w with
      | (inl err, w) => (fails TokenResponse.zero (Errorf_w "RefreshToken: " (Some err)), w)
      | (inr resp, w) =>
          deferred Body_Close (fun w =>
            let code := StatusCode resp in
            let switch :=
              if (code =? 200)%Z then None
              else if (code =? 401)%Z then Some (ESentinel ErrInvalidGrant)
              else if (code =? 403)%Z then Some (ESentinel ErrForbidden)
              else if (code =? 500)%Z then Some (ESentinel ErrServerError)
              else if ((code =? 503) || (code =? 504))%Z then Some (ESentinel ErrServiceOverloaded)
              else if ((code =? 520) || (code =? 521) || (code =? 522))%Z then
                Some (ESentinel ErrCloudflareError)
              else Some (Errorf_status "RefreshToken: " code) in
            match switch with
            | Some e => (fails TokenResponse.zero e, w)
            | None =>
                let '(b, err) := ReadAll resp in
                match err with
                | Some _ => (fails TokenResponse.zero (Errorf_w "RefreshToken: " err), w)
                | None =>
                    let '(respStruct, err) :=
                      Unmarshal.internalTokenResponse_ b internalTokenResponse.zero in
                    match err with
                    | Some _ => (fails TokenResponse.zero (Errorf_w "RefreshToken: " err), w)
                    | None => ((transformInternalTokenResponse respStruct, None), w)
                    end
                end
            end) w
      end
  end.

(** RefreshAccessToken wraps RefreshAccessTokenContext with a
    context.Background() struct. *)
Definition RefreshAccessToken (env : Env) (refreshToken clientID clientSecret : string)
    (w : World) :=
  RefreshAccessTokenContext env Background refreshToken clientID clientSecret w.

(** The [for] loop of PollForAuthTokenContext; [fuel] bounds the number
    of iterations, [None] is a loop still running when it is used up. *)
Fixpoint poll_loop (fuel : nat) (env : Env) (ctx : Context) (codeResp : CodeResponse.t)
    (clientID clientSecret : string) (w : World)
    : option ((TokenResponse.t * error) * World) :=
  match fuel with
  | O => None
  | S fuel' =>
      match select env ctx (seconds (CodeResponse.Interval codeResp)) w with
      | (TimerFired, w) =>
          let '((resp, err), w) := RequestTokenContext env ctx codeResp clientID clientSecret w in
          match err with
          | None => Some ((resp, None), w)
          | Some _ =>
              if negb (errors_Is err ErrDeviceCodeUnclaimed) then
                Some (fails TokenResponse.zero (Errorf_w "PollForAuthToken: " err), w)
              else poll_loop fuel' env ctx codeResp clientID clientSecret w
          end
      | (CtxDone, w) => Some (fails TokenResponse.zero exceeded_context, w)
      end
  end.

(** The deadline PollForAuthTokenContext computes on entry:
    [time.Now().Add(time.Second * time.Duration(codeResp.ExpiresIn))]. *)
Definition poll_deadline (codeResp : CodeResponse.t) (w : World) : Z :=
  (now w + seconds (CodeResponse.ExpiresIn codeResp))%Z.

(** PollForAuthTokenContext continuously polls for the access token from
    a CodeResponse. The passed context is truncated using
    context.WithDeadline to match the CodeResponse.ExpiresIn value. *)
Definition PollForAuthTokenContext (fuel : nat) (env : Env) (ctx : Context)
    (codeResp : CodeResponse.t) (clientID clientSecret : string) (w : World)
    : option ((TokenResponse.t * error) * World) :=
  let ctx := WithDeadline ctx (poll_deadline codeResp w) in
  poll_loop fuel env ctx codeResp clientID clientSecret w.

(** PollForAuthToken wraps PollForAuthTokenContext using context.Background(). *)
Definition PollForAuthToken (fuel : nat) (env : Env) (codeResp : CodeResponse.t)
    (clientID clientSecret : string) (w : World) :=
  PollForAuthTokenContext fuel env Background codeResp clientID clientSecret w.

End Part001.

(* ================================================================= *)
(** ** [src/traktdeviceauth.go] *)

Module TraktDeviceAuthGo.
Local Open Scope string_scope.

(** GenerateNewCodeContext reaches out to the Trakt API to acquire a
    claimable code. *)
Definition GenerateNewCodeContext (env : Env) (ctx : Context) (clientID : string)
    (w : World) : (CodeResponse.t * error) * World :=
  let dataBuf := "{" ++ quoted "client_id" ++ ": " ++ quoted clientID ++ "}" in
  match NewRequestWithContext env "POST" "https://api.trakt.tv/oauth/device/code" dataBuf with
  | inl err => (fails CodeResponse.zero (Errorf_w "GenerateNewCode: " (Some err)), w)
  | inr req =>
      let req := Header_Set req "Content-Type" "application/json" in
      let req := Header_Set req "Trakt-API-Version" "2" in
      match Do env ctx req w with
      | (inl err, w) => (fails CodeResponse.zero (Errorf_w "GenerateNewCode: " (Some err)), w)
      | (inr resp, w) =>
          deferred Body_Close (fun w =>
            let code := StatusCode resp in
            let switch :=
              if (code =? 200)%Z then None
              else if (code =? 403)%Z then Some (ESentinel ErrForbidden)
              else if (code =? 500)%Z then Some (ESentinel ErrServerError)
              else if ((code =? 503) || (code =? 504))%Z then Some (ESentinel ErrServiceOverloaded)
              else if ((code =? 520) || (code =? 521) || (code =? 522))%Z then
                Some (ESentinel ErrCloudflareError)
              else Some (Errorf_status "RequestToken: " code) in
            match switch with
            | Some e => (fails CodeResponse.zero e, w)
            | None =>
                let '(b, err) := ReadAll resp in
                match err with
                | Some _ => (fails CodeResponse.zero (Errorf_w "GenerateNewCode: " err), w)
                | None =>
                    let '(codeResp, err) := Unmarshal.CodeResponse_ b CodeResponse.zero in
                    match err with
                    | Some _ => (fails CodeResponse.zero (Errorf_w "GenerateNewCode: " err), w)
                    | None => ((codeResp, None), w)
                    end
                end
            end) w
      end
  end.

(** GenerateNewCode wraps GenerateNewCodeContext using context.Background(). *)
Definition GenerateNewCode (env : Env) (clientID : string) (w : World) :=
  GenerateNewCodeContext env Background clientID w.

(** RequestTokenContext: no [defer] here; the body is closed by the
    statement after [ioutil.ReadAll], which the [return]s of the
    [switch] do not reach. *)
Definition RequestTokenContext (env : Env) (ctx : Context) (codeResp : CodeResponse.t)
    (clientID clientSecret : string) (w : World) : (TokenResponse.t * error) * World :=
  let dataBuf :=
    "{" ++ quoted "code" ++ ": " ++ quoted (CodeResponse.DeviceCode codeResp)
        ++ ", " ++ quoted "client_id" ++ ": " ++ quoted clientID
        ++ ", " ++ quoted "client_secret" ++ ": " ++ quoted clientSecret ++ "}" in
  match NewRequestWithContext env "POST" "https://api.trakt.tv/oauth/device/token" dataBuf with
  | inl err => (fails TokenResponse.zero (Errorf_w "RequestToken: " (Some err)), w)
  | inr req =>
      let req := Header_Set req "Content-Type" "application/json" in
      let req := Header_Set req "Trakt-API-Version" "2" in
      match Do env ctx req w with
      | (inl err, w) => (fails TokenResponse.zero (Errorf_w "RequestToken: " (Some err)), w)
      | (inr resp, w) =>
          let code := StatusCode resp in
          let switch :=
            if (code =? 200)%Z then None
            else if (code =? 400)%Z then Some (ESentinel ErrDeviceCodeUnclaimed)
            else if (code =? 404)%Z then Some (ESentinel ErrInvalidDeviceCode)
            else if (code =? 409)%Z then Some (ESentinel ErrDeviceCodeAlreadyApproved)
            else if (code =? 410)%Z then Some (ESentinel ErrDeviceCodeExpired)
            else if (code =? 418)%Z then Some (ESentinel ErrDeviceCodeDenied)
            else if (code =? 429)%Z then Some (ESentinel ErrPollRateTooFast)
            else if (code =? 500)%Z then Some (ESentinel ErrServerError)
            else if ((code =? 503) || (code =? 504))%Z then Some (ESentinel ErrServiceOverloaded)
            else if ((code =? 520) || (code =? 521) || (code =? 522))%Z then
              Some (ESentinel ErrCloudflareError)
            else Some (Errorf_status "RequestToken: " code) in
          match switch with
          | Some e => (fails TokenResponse.zero e, w)
          | None =>
              let '(b, err) := ReadAll resp in
              let w := Body_Close w in
              match err with
              | Some _ => (fails TokenResponse.zero (Errorf_w "RequestToken: " err), w)
              | None =>
                  let '(respStruct, err) :=
                    Unmarshal.internalTokenResponse_ b internalTokenResponse.zero in
                  match err with
                  | Some _ => (fails TokenResponse.zero (Errorf_w "RequestToken: " err), w)
                  | None => ((transformInternalTokenResponse respStruct, None), w)
                  end
              end
          end
      end
  end.

(** RequestToken wraps RequestTokenContext using context.Background(). *)
Definition RequestToken (env : Env) (codeResp : CodeResponse.t)
    (clientID clientSecret : string) (w : World) :=
  RequestTokenContext env Background codeResp clientID clientSecret w.

(** The [for] loop of PollForAuthTokenContext. Its first test is
    [err != nil], and that branch returns [resp, nil]. *)
Fixpoint poll_loop (fuel : nat) (env : Env) (ctx : Context) (codeResp : CodeResponse.t)
    (clientID clientSecret : string) (w : World)
    : option ((TokenResponse.t * error) * World) :=
  match fuel with
  | O => None
  | S fuel' =>
      match select env ctx (seconds (CodeResponse.Interval codeResp)) w with
      | (TimerFired, w) =>
          let '((resp, err), w) := RequestTokenContext env ctx codeResp clientID clientSecret w in
          match err with
          | Some _ => Some ((resp, None), w)
          | None =>
              if negb (errors_Is err ErrDeviceCodeUnclaimed) then
                Some (fails TokenResponse.zero (Errorf_w "PollForAuthToken: " err), w)
              else poll_loop fuel' env ctx codeResp clientID clientSecret w
          end
      | (CtxDone, w) => Some (fails TokenResponse.zero exceeded_context, w)
      end
  end.

Definition poll_deadline (codeResp : CodeResponse.t) (w : World) : Z :=
  (now w + seconds (CodeResponse.ExpiresIn codeResp))%Z.

(** PollForAuthTokenContext continuously polls for the access token from
    a CodeResponse. *)
Definition PollForAuthTokenContext (fuel : nat) (env : Env) (ctx : Context)
    (codeResp : CodeResponse.t) (clientID clientSecret : string) (w : World)
    : option ((TokenResponse.t * error) * World) :=
  let ctx := WithDeadline ctx (poll_deadline codeResp w) in
  poll_loop fuel env ctx codeResp clientID clientSecret w.

(** PollForAuthToken wraps PollForAuthTokenContext using context.Background(). *)
Definition PollForAuthToken (fuel : nat) (env : Env) (codeResp : CodeResponse.t)
    (clientID clientSecret : string) (w : World) :=
  PollForAuthTokenContext fuel env Background codeResp clientID clientSecret w.

End TraktDeviceAuthGo.

(* ================================================================= *)
(** ** Scenarios: servers, grants and documents used in the examples *)

Module Scenario.
Local Open Scope string_scope.

(** One member [key: value] of a document, the value a string. *)
Definition member (key val : string) : string := quoted key ++ ": " ++ quoted val.
(** One member whose value is a number literal. *)
Definition member_num (key lit : string) : string := quoted key ++ ": " ++ lit.

Definition token_document : string :=
  "{" ++ member "access_token" "AT" ++ ", " ++ member "token_type" "bearer"
      ++ ", " ++ member_num "expires_in" "7776000"
      ++ ", " ++ member "refresh_token" "RT" ++ ", " ++ member "scope" "public"
      ++ ", " ++ member_num "created_at" "1700000000" ++ "}".

Definition code_document (expires_in interval : string) : string :=
  "{" ++ member "device_code" "abc" ++ ", " ++ member "user_code" "5055CC52"
      ++ ", " ++ member "verification_url" "https://trakt.tv/activate"
      ++ ", " ++ member_num "expires_in" expires_in
      ++ ", " ++ member_num "interval" interval ++ "}".

(** A reply that takes 100 ms. *)
Definition after_100ms (o : Outcome) : Reply := mkReply 100000000 o.

Definition status (code : Z) (body : string) : Reply :=
  after_100ms (Respond (mkResponse code (Bytes body))).

(** The server answers the requests in order from [script]; once the
    script is used up it answers 400. *)
Definition scripted (script : list Reply) : Env :=
  mkEnv "https://api.trakt.tv" (fun _ => None)
    (fun n _ => nth n script (status 400 ""))
    (fun _ => true).

(** The grant of the scenario in the specification. *)
Definition grant : CodeResponse.t :=
  CodeResponse.mk "abc" "5055CC52" "https://trakt.tv/activate" 600 5.

Definition the_token : TokenResponse.t :=
  TokenResponse.mk "AT" "bearer" (mkTime 63843372800 0 Local) "RT" "public"
    (mkTime 63835596800 0 Local).

End Scenario.

(* ================================================================= *)
(** ** Vocabulary of the statements *)

(** The status table of the specification, one column per operation
    (the codes whose "applies to" names the operation or says "all"). *)
Definition spec_table_RequestDeviceCode : list Z :=
  [200; 403; 500; 503; 504; 520; 521; 522].
Definition spec_table_ExchangeCodeForToken : list Z :=
  [200; 400; 403; 404; 409; 410; 418; 429; 500; 503; 504; 520; 521; 522].
Definition spec_table_RefreshToken : list Z :=
  [200; 401; 403; 500; 503; 504; 520; 521; 522].

(** The context is not done before a reply that takes [l] nanoseconds
    from the instant of [w] has arrived. *)
Definition in_time (ctx : Context) (w : World) (l : Z) : Prop :=
  match done_at ctx with
  | None => True
  | Some d => now w < d /\ now w + Z.max 0 l <= d
  end.

(** The next request, whatever it is, parses its URL, reaches the server
    and is answered by [resp] before the context is done. *)
Definition responds (env : Env) (ctx : Context) (w : World) (resp : Response) : Prop :=
  (forall u, url_error env u = None) /\
  (forall req, outcome (server env (length (sent w)) req) = Respond resp) /\
  (forall req, in_time ctx w (latency (server env (length (sent w)) req))).

(** Seconds since the Unix epoch that [time.Unix] turns into a [Time]
    without wrapping its internal seconds. *)
Definition representable (sec : Z) : Prop :=
  minInt64 <= sec <= maxInt64 - unixToInternal.

(** A number of seconds that [time.Second * time.Duration(n)] holds. *)
Definition fits_Duration (n : Z) : Prop :=
  - maxDurationSeconds <= n <= maxDurationSeconds.

(** Every request of the log was submitted before the instant [d]. *)
Definition all_sent_before (d : Z) (w : World) : Prop :=
  Forall (fun tr => fst tr < d) (sent w).

(** The result an operation gives for a status code outside its switch. *)
Definition unexpected_status {T : Type} (zero : T) (prefix : string) (code : Z)
    : T * error :=
  (zero, Some (Errorf_status prefix code)).

(** An error value that is none of the package-level variables and wraps
    none of them. *)
Definition unclassified (e : GoError) : Prop :=
  forall s, errors_Is (Some e) s = false.

(** The bodies of the requests a call has left in the log. *)
Definition submitted {A : Type} (r : A * World) : list string :=
  map (fun tr => ReqBody (snd tr)) (sent (snd r)).

(** The world at the end of [select] when it takes the channel ready at
    instant [t]. *)
Definition selected_at (w : World) (t : Z) : World :=
  mkWorld t (sent w) (live_bodies w) (S (selects w)).

(** The instant at which the timer of the loop fires when the wait
    starts in [w]. *)
Definition next_tick (codeResp : CodeResponse.t) (w : World) : Z :=
  now w + Z.max 0 (seconds (CodeResponse.Interval codeResp)).

(** Resolve the [switch] of an operation for a status code [code] known
    to be outside the table [tbl] (hypothesis [H : ~ In code tbl]). *)
Ltac outside_table H tbl :=
  repeat match goal with
  | |- context [Z.eqb ?c ?k] =>
      replace (Z.eqb c k) with false
        by (symmetry; apply Z.eqb_neq; intros ->; apply H;
            cbv [In tbl]; repeat first [left; reflexivity | right])
  end.

(** Case analysis on every test of a [switch]. *)
Ltac each_case :=
  repeat match goal with
  | |- context [if ?b then _ else _] => destruct b
  end.

(* ================================================================= *)
(** ** Vocabulary of the further properties *)

Definition CtxErr_eqb (a b : CtxErr) : bool :=
  match a, b with
  | Canceled, Canceled | DeadlineExceeded, DeadlineExceeded => true
  | _, _ => false
  end.

(** [errors.Is(err, target)] for a [target] of package [context]:
    [context.Canceled] or [context.DeadlineExceeded]. *)
Fixpoint Is_context_chain (e : GoError) (target : CtxErr) : bool :=
  match e with
  | EContext c => CtxErr_eqb c target
  | EWrap _ inner => Is_context_chain inner target
  | _ => false
  end.

Definition errors_Is_context (err : error) (target : CtxErr) : bool :=
  match err with
  | None => false
  | Some e => Is_context_chain e target
  end.


(** The request after the two [req.Header.Set] of every operation. *)
Definition api_request (url body : string) : Request :=
  mkRequest "POST" url
    [("Trakt-API-Version", "2"); ("Content-Type", "application/json")]%string body.



(** The instants of [l] are at least [gap] apart, the first one at
    least [gap] after [from]. *)
Fixpoint spaced (gap from : Z) (l : list (Z * Request)) : Prop :=
  match l with
  | [] => True
  | tr :: l' => from + gap <= fst tr /\ spaced gap (fst tr) l'
  end.


(** The call left the world [w] as it was and returned the zero value
    with an error that [errors.Is] matches with the error of the
    context and with none of the classifications of the package. *)
Definition stopped_by_context {T : Type} (zero : T) (ctx : Context) (w : World)
    (r : (T * error) * World) : Prop :=
  exists e,
    r = ((zero, Some e), w) /\
    errors_Is_context (Some e) (Err ctx) = true /\
    unclassified e.

(* ================================================================= *)
(** ** The command of [src/unnamed/part_000]

    [main] is embedded over the library it imports, given as the two
    functions it calls, so that it can be run with the package of either
    file. Standard input is abstract: [Scan] is what a fresh
    [bufio.Scanner] over [os.Stdin] gives on [Scan] then [Text] (the
    empty string when [Scan] returns false), with what it leaves of the
    input. [Time_String] is the method [String] of [time.Time]. *)

Section Main.

Variable Stdin : Type.
Variable Scan : Stdin -> string * Stdin.
Variable Time_String : Time -> string.
Variable GenerateNewCode : string -> World -> (CodeResponse.t * error) * World.
Variable PollForAuthToken :
  CodeResponse.t -> string -> string -> World -> option ((TokenResponse.t * error) * World).

(** The terminal: what is left to read and what was printed. *)
Record Console : Type := mkConsole { stdin : Stdin; stdout : string }.

(** [fmt.Print(s)] and [fmt.Printf] once the operands are in place. *)
Definition Print (s : string) (c : Console) : Console :=
  mkConsole (stdin c) (stdout c ++ s)%string.

(** input mimics Python's input function, which outputs a prompt and
    takes bytes from stdin until a newline and returns a string. *)
Definition input (prompt : string) (c : Console) : string * Console :=
  let c := Print prompt c in
  let '(text, rest) := Scan (stdin c) in
  (text, mkConsole rest (stdout c)).

(** How [main] ends: it returns, or it panics with an error. *)
Inductive Exit : Type :=
| Returned
| Panicked (err : GoError).

Definition newline : string := String (ascii_of_nat 10) EmptyString.

(** The operands of the last [Printf] of [main] in its format. *)
Definition token_report (tR : TokenResponse.t) : string :=
  ("AccessToken: " ++ TokenResponse.AccessToken tR ++ newline
   ++ "RefreshToken: " ++ TokenResponse.RefreshToken tR ++ newline
   ++ "Expires at: " ++ Time_String (TokenResponse.ExpiresAt tR))%string.

(** [None] when the poll is still running at the end of its fuel. *)
Definition main (c : Console) (w : World) : option ((Exit * Console) * World) :=
  let '(clientID, c) := input "Please enter your app's client id: " c in
  let '(clientSecret, c) := input "Please enter your app's client secret: " c in
  let '((cR, err), w) := GenerateNewCode clientID w in
  match err with
  | Some e => Some ((Panicked e, c), w)
  | None =>
      let c :=
        Print ("Please visit " ++ CodeResponse.VerificationURL cR
               ++ " and enter the following code: " ++ CodeResponse.UserCode cR
               ++ newline)%string c in
      match PollForAuthToken cR clientID clientSecret w with
      | None => None
      | Some ((tR, err), w) =>
          match err with
          | Some e => Some ((Panicked e, c), w)
          | None => Some ((Returned, Print (token_report tR) c), w)
          end
      end
  end.

End Main.

Arguments mkConsole {Stdin} stdin stdout.
Arguments stdin {Stdin} c.
Arguments stdout {Stdin} c.
Arguments Print {Stdin} s c.
Arguments input {Stdin} Scan prompt c.
Arguments main {Stdin} Scan Time_String GenerateNewCode PollForAuthToken c w.

(** [main] linked with the package of [part_001]. *)
Definition main_part_001 {Stdin : Type} (Scan : Stdin -> string * Stdin)
    (Time_String : Time -> string) (fuel : nat) (env : Env) :=
  main Scan Time_String (Part001.GenerateNewCode env) (Part001.PollForAuthToken fuel env).


(** A terminal for the examples: standard input as the lines still to
    read, one per [Scan], and a rendering of a time by its Unix seconds. *)
Definition scan_lines (l : list string) : string * list string :=
  match l with
  | [] => (EmptyString, [])
  | text :: rest => (text, rest)
  end.

Definition unix_text (t : Time) : string := Sprint_int (Time_Unix t).

(* ================================================================= *)
(** ** Machine integers and time: basic facts *)

Lemma wrap64_id (z : Z) : in_int64 z -> wrap64 z = z.
Proof.
  unfold in_int64, minInt64, maxInt64, wrap64. intros H.
  rewrite Z.mod_small; lia.
Qed.

Lemma seconds_exact (n : Z) : fits_Duration n -> seconds n = 1000000000 * n.
Proof.
  unfold fits_Duration, maxDurationSeconds, seconds, Second. intros H.
  apply wrap64_id. unfold in_int64, minInt64, maxInt64. lia.
Qed.

Lemma time_Unix_whole (sec : Z) :
  time_Unix sec 0 = mkTime (wrap64 (sec + unixToInternal)) 0 Local.
Proof. reflexivity. Qed.

Lemma addSec_exact (t : Time) (d : Z) :
  in_int64 (ext t + d) -> addSec t d = mkTime (ext t + d) (nsec t) (loc t).
Proof.
  intros H. unfold addSec. rewrite (wrap64_id _ H).
  destruct (Z.ltb_spec (ext t) (ext t + d)); destruct (Z.ltb_spec 0 d);
    simpl; try reflexivity; lia.
Qed.

(** Adding a whole number of seconds to a [Time] on a second boundary. *)
Lemma Time_Add_whole (e n : Z) (l : Location) :
  in_int64 (e + n) ->
  Time_Add (mkTime e 0 l) (1000000000 * n) = mkTime (e + n) 0 l.
Proof.
  intros H. unfold Time_Add. cbn [nsec ext loc].
  replace (Z.rem (1000000000 * n) 1000000000) with 0
    by (symmetry; rewrite Z.mul_comm; apply Z.rem_mul; lia).
  replace (Z.quot (1000000000 * n) 1000000000) with n
    by (symmetry; rewrite Z.mul_comm; apply Z.quot_mul; lia).
  cbn -[addSec]. rewrite addSec_exact by exact H. reflexivity.
Qed.

(** *** The response transformer *)

(** C6, the claim as amended. Whenever the payload's [ExpiresIn] is a
    number of seconds that a [time.Duration] holds and [CreatedAt],
    [CreatedAt + ExpiresIn] are instants [time.Unix] represents, the
    record has the strings of the payload, [CreatedAt] is the instant
    [CreatedAt] seconds after the epoch, [ExpiresAt] is that instant plus
    [ExpiresIn] seconds, and their difference is [ExpiresIn] seconds
    whatever the locations the two times are shown in. *)
Theorem transform_times_in_range (internal : internalTokenResponse.t) :
  representable (internalTokenResponse.CreatedAt internal) ->
  fits_Duration (internalTokenResponse.ExpiresIn internal) ->
  representable (internalTokenResponse.CreatedAt internal
                 + internalTokenResponse.ExpiresIn internal) ->
  let t := transformInternalTokenResponse internal in
  TokenResponse.AccessToken t = internalTokenResponse.AccessToken internal /\
  TokenResponse.TokenType t = internalTokenResponse.TokenType internal /\
  TokenResponse.RefreshToken t = internalTokenResponse.RefreshToken internal /\
  TokenResponse.Scope t = internalTokenResponse.Scope internal /\
  Time_Unix (TokenResponse.CreatedAt t) = internalTokenResponse.CreatedAt internal /\
  nsec (TokenResponse.CreatedAt t) = 0 /\
  Time_Unix (TokenResponse.ExpiresAt t)
    = internalTokenResponse.CreatedAt internal + internalTokenResponse.ExpiresIn internal /\
  nsec (TokenResponse.ExpiresAt t) = 0 /\
  forall l l' : Location,
    Time_Sub (Time_In (TokenResponse.ExpiresAt t) l) (Time_In (TokenResponse.CreatedAt t) l')
    = 1000000000 * internalTokenResponse.ExpiresIn internal.
Proof.
  destruct internal as [a ty n r s c]. cbn [internalTokenResponse.CreatedAt
    internalTokenResponse.ExpiresIn internalTokenResponse.AccessToken
    internalTokenResponse.TokenType internalTokenResponse.RefreshToken
    internalTokenResponse.Scope].
  unfold representable, fits_Duration, maxDurationSeconds. intros Hc Hn Hs.
  assert (Hu : unixToInternal = 62135596800) by reflexivity.
  assert (Hmin : minInt64 = -9223372036854775808) by reflexivity.
  assert (Hmax : maxInt64 = 9223372036854775807) by reflexivity.
  assert (Hce : wrap64 (c + unixToInternal) = c + unixToInternal)
    by (apply wrap64_id; unfold in_int64; lia).
  assert (Hadd : forall l, Time_Add (mkTime (c + unixToInternal) 0 l) (1000000000 * n)
                 = mkTime (c + unixToInternal + n) 0 l)
    by (intro l; apply Time_Add_whole; unfold in_int64; lia).
  unfold transformInternalTokenResponse.
  cbn [TokenResponse.AccessToken TokenResponse.TokenType TokenResponse.RefreshToken
       TokenResponse.Scope TokenResponse.CreatedAt TokenResponse.ExpiresAt
       internalTokenResponse.CreatedAt internalTokenResponse.ExpiresIn
       internalTokenResponse.AccessToken internalTokenResponse.TokenType
       internalTokenResponse.RefreshToken internalTokenResponse.Scope].
  rewrite time_Unix_whole, Hce.
  rewrite seconds_exact by (unfold fits_Duration, maxDurationSeconds; lia).
  rewrite Hadd.
  repeat split; try reflexivity.
  - unfold Time_Unix, internalToUnix. cbn [ext].
    rewrite wrap64_id by (unfold in_int64; lia). lia.
  - unfold Time_Unix, internalToUnix. cbn [ext].
    rewrite wrap64_id by (unfold in_int64; lia). lia.
  - intros l l'. unfold Time_Sub, Time_In. cbn [ext nsec loc].
    replace (c + unixToInternal + n - (c + unixToInternal)) with n by lia.
    rewrite (wrap64_id n) by (unfold in_int64; lia).
    unfold Second.
    rewrite (wrap64_id (n * 1000000000)) by (unfold in_int64; lia).
    replace (n * 1000000000 + (0 - 0)) with (1000000000 * n) by lia.
    rewrite (wrap64_id (1000000000 * n)) by (unfold in_int64; lia).
    rewrite Hadd. unfold Time_Equal. cbn [ext nsec].
    rewrite !Z.eqb_refl. reflexivity.
Qed.

(** The round trip of the specification: [createdAt = 1700000000] and
    [expiresIn = 7776000] are in range, and the difference of the two
    times is 7776000 seconds in every pair of locations. *)
Lemma transform_round_trip_1700000000 :
  let t := transformInternalTokenResponse
             (internalTokenResponse.mk "AT" "bearer" 7776000 "RT" "public" 1700000000) in
  Time_Unix (TokenResponse.CreatedAt t) = 1700000000 /\
  Time_Unix (TokenResponse.ExpiresAt t) = 1700000000 + 7776000 /\
  forall l l' : Location,
    Time_Sub (Time_In (TokenResponse.ExpiresAt t) l) (Time_In (TokenResponse.CreatedAt t) l')
    = 1000000000 * 7776000.
Proof.
  pose proof (transform_times_in_range
    (internalTokenResponse.mk "AT" "bearer" 7776000 "RT" "public" 1700000000)) as H.
  cbn [internalTokenResponse.CreatedAt internalTokenResponse.ExpiresIn] in H.
  assert (H1 : representable 1700000000)
    by (unfold representable, minInt64, maxInt64, unixToInternal; lia).
  assert (H2 : fits_Duration 7776000)
    by (unfold fits_Duration, maxDurationSeconds; lia).
  assert (H3 : representable (1700000000 + 7776000))
    by (unfold representable, minInt64, maxInt64, unixToInternal; lia).
  specialize (H H1 H2 H3).
  destruct H as (_ & _ & _ & _ & Hc & _ & He & _ & Hd).
  split; [exact Hc | split; [exact He | exact Hd]].
Defined.

(** C6 as stated fails: a payload whose [expires_in] is 9223372037
    makes [time.Second * time.Duration(ExpiresIn)] wrap to a negative
    duration, and [ExpiresAt] comes out before [CreatedAt] instead of
    9223372037 seconds after it. *)
Lemma transform_wraps_long_lifetime :
  let internal := internalTokenResponse.mk "AT" "bearer" 9223372037 "RT" "public" 1700000000 in
  let t := transformInternalTokenResponse internal in
  seconds (internalTokenResponse.ExpiresIn internal) = -9223372036709551616 /\
  TokenResponse.ExpiresAt t = mkTime 54612224763 290448384 Local /\
  Time_Unix (TokenResponse.ExpiresAt t)
    <> Time_Unix (TokenResponse.CreatedAt t) + internalTokenResponse.ExpiresIn internal /\
  Time_Before (TokenResponse.ExpiresAt t) (TokenResponse.CreatedAt t) = true.
Proof.
  cbv zeta. split; [reflexivity|]. split; [reflexivity|]. split.
  - vm_compute. discriminate.
  - reflexivity.
Qed.

(** *** The poll loop of [src/traktdeviceauth.go] on its first attempt *)

(** C1 at its failing input, on [src/traktdeviceauth.go]. The grant is
    [{abc, 600 s, 5 s}] and the first exchange is answered 200 with a
    token document. [RequestToken] returns the token and a nil error, but
    the loop's test is [err != nil]: the poll returns the zero token and
    the error that [fmt.Errorf] makes of a nil operand. With a first
    answer 400 the same test returns the zero token with a nil error. *)
Theorem TraktDeviceAuthGo_poll_inverts_nil_test :
  fst (TraktDeviceAuthGo.RequestToken
         (Scenario.scripted [Scenario.status 200 Scenario.token_document])
         Scenario.grant "id" "secret" world0)
    = (Scenario.the_token, None) /\
  option_map fst
    (TraktDeviceAuthGo.PollForAuthToken 1
       (Scenario.scripted [Scenario.status 200 Scenario.token_document])
       Scenario.grant "id" "secret" world0)
    = Some (TokenResponse.zero, Some (EString "PollForAuthToken: %!w(<nil>)")) /\
  option_map fst
    (TraktDeviceAuthGo.PollForAuthToken 1
       (Scenario.scripted [Scenario.status 400 ""])
       Scenario.grant "id" "secret" world0)
    = Some (TokenResponse.zero, None).
Proof. repeat split; vm_compute; reflexivity. Qed.

(** C2 at its failing input, on [src/traktdeviceauth.go]. The first
    exchange is answered 418: [RequestToken] returns
    [ErrDeviceCodeDenied], the poll ends on that attempt (one request
    sent) but returns a nil error instead of an error wrapping it. *)
Theorem TraktDeviceAuthGo_poll_swallows_fatal_error :
  let env := Scenario.scripted [Scenario.status 418 ""] in
  fst (TraktDeviceAuthGo.RequestToken env Scenario.grant "id" "secret" world0)
    = (TokenResponse.zero, Some (ESentinel ErrDeviceCodeDenied)) /\
  option_map (fun r => (fst r, length (sent (snd r))))
    (TraktDeviceAuthGo.PollForAuthToken 1 env Scenario.grant "id" "secret" world0)
    = Some ((TokenResponse.zero, None), 1%nat).
Proof. split; vm_compute; reflexivity. Qed.

(** *** The exchange of [src/traktdeviceauth.go] *)

(** C5 at its failing input, on [src/traktdeviceauth.go]. Its [switch]
    has no [case 403]: an exchange answered 403 returns the "unexpected
    status code" error, which is not [ErrForbidden] and does not wrap it. *)
Theorem TraktDeviceAuthGo_exchange_403_is_unexpected :
  let r := fst (TraktDeviceAuthGo.RequestToken
                  (Scenario.scripted [Scenario.status 403 ""])
                  Scenario.grant "id" "secret" world0) in
  r = (TokenResponse.zero, Some (EString "RequestToken: unexpected status code '403'")) /\
  errors_Is (snd r) ErrForbidden = false.
Proof. split; vm_compute; reflexivity. Qed.

(** C7 at its failing input, on [src/traktdeviceauth.go]. An exchange
    answered 400 leaves by the [return] of the [switch], before the
    statement that closes the body: one body stays open. The same
    exchange answered 200 closes it. *)
Theorem TraktDeviceAuthGo_exchange_leaks_body :
  live_bodies (snd (TraktDeviceAuthGo.RequestToken
                      (Scenario.scripted [Scenario.status 400 ""])
                      Scenario.grant "id" "secret" world0)) = 1%nat /\
  live_bodies (snd (TraktDeviceAuthGo.RequestToken
                      (Scenario.scripted [Scenario.status 200 Scenario.token_document])
                      Scenario.grant "id" "secret" world0)) = 0%nat.
Proof. split; vm_compute; reflexivity. Qed.

(* ================================================================= *)
(** ** Error values: the status code inside the message *)

Lemma Sprint_int_inj (n m : Z) : Sprint_int n = Sprint_int m -> n = m.
Proof.
  unfold Sprint_int. intros H.
  apply DecimalZ.to_int_inj.
  assert (G : forall z,
    NilZero.int_of_string (NilZero.string_of_int (Z.to_int z)) = Some (Z.to_int z)).
  { intro z. apply NilZero.isi; destruct z; simpl; try discriminate;
      intro E; injection E; apply Unsigned.to_uint_nonnil. }
  pose proof (G n) as Gn. rewrite H, G in Gn. congruence.
Qed.

Lemma length_append (a b : string) :
  String.length (a ++ b) = (String.length a + String.length b)%nat.
Proof. induction a; simpl; [reflexivity | now rewrite IHa]. Qed.

Lemma append_cancel_l (p a b : string) : (p ++ a = p ++ b)%string -> a = b.
Proof. induction p; simpl; intros H; [exact H | injection H; auto]. Qed.

Lemma append_cancel_r (s a b : string) : (a ++ s = b ++ s)%string -> a = b.
Proof.
  revert b. induction a as [|c a IH]; destruct b as [|d b]; simpl; intros H.
  - reflexivity.
  - apply (f_equal String.length) in H. simpl in H. rewrite length_append in H. lia.
  - apply (f_equal String.length) in H. simpl in H. rewrite length_append in H. lia.
  - injection H as -> H. f_equal. auto.
Qed.

(** The status code can be read back from the error: two codes give the
    same error only when they are equal. *)
Lemma Errorf_status_inj (p : string) (n m : Z) :
  Errorf_status p n = Errorf_status p m -> n = m.
Proof.
  unfold Errorf_status. intros H. injection H as H.
  apply append_cancel_l in H.
  apply (append_cancel_l "unexpected status code '") in H.
  apply append_cancel_r in H. apply Sprint_int_inj; exact H.
Qed.

Lemma Errorf_status_unclassified (p : string) (code : Z) :
  unclassified (Errorf_status p code).
Proof. intro s. reflexivity. Qed.

(* ================================================================= *)
(** ** The network: what [Do] returns and what it does to the world *)

Lemma NewRequest_parses (env : Env) (m u b : string) :
  (forall u, url_error env u = None) ->
  NewRequestWithContext env m u b = inr (mkRequest m u [] b).
Proof. intros H. unfold NewRequestWithContext. now rewrite H. Qed.

Lemma Do_responds (env : Env) (ctx : Context) (w : World) (resp : Response) (req : Request) :
  responds env ctx w resp ->
  Do env ctx req w =
    (inr resp,
     mkWorld (now w + Z.max 0 (latency (server env (length (sent w)) req)))
       (sent w ++ [(now w, req)]) (S (live_bodies w)) (selects w)).
Proof.
  intros (_ & Hout & Htime). specialize (Hout req). specialize (Htime req).
  unfold Do, in_time in *.
  destruct (done_at ctx) as [d|].
  - destruct Htime as [H1 H2].
    destruct (Z.leb_spec d (now w)); [lia|].
    destruct (Z.ltb_spec d (now w + Z.max 0 (latency (server env (length (sent w)) req))));
      [lia|].
    now rewrite Hout.
  - now rewrite Hout.
Qed.

(** [Do] hands out one body when it returns a response, none when it
    returns an error. *)
Lemma Do_live_bodies (env : Env) (ctx : Context) (req : Request) (w : World) :
  match Do env ctx req w with
  | (inl _, w') => live_bodies w' = live_bodies w
  | (inr _, w') => live_bodies w' = S (live_bodies w)
  end.
Proof.
  unfold Do.
  destruct (match done_at ctx with Some d => d <=? now w | None => false end);
    [reflexivity|].
  destruct (match done_at ctx with
            | Some d => if d <? _ then Some d else None
            | None => None end); [reflexivity|].
  destruct (outcome _); reflexivity.
Qed.

(* ================================================================= *)
(** ** Status codes outside the table *)

(** C8. An operation whose request is answered with a status code that
    its column of the status table does not list returns the zero value
    and the error "unexpected status code 'N'" with N the decimal of the
    code received. That error is none of the package-level
    classifications, wraps none, is not nil, and determines the code.
    This holds for the three operations of [part_001] and for the two of
    [traktdeviceauth.go]. *)
Theorem unlisted_status_is_unexpected
    (env : Env) (ctx : Context) (w : World) (resp : Response) :
  responds env ctx w resp ->
  (~ In (StatusCode resp) spec_table_RequestDeviceCode ->
   forall clientID,
     fst (Part001.GenerateNewCodeContext env ctx clientID w)
       = unexpected_status CodeResponse.zero "RequestToken: " (StatusCode resp) /\
     fst (TraktDeviceAuthGo.GenerateNewCodeContext env ctx clientID w)
       = unexpected_status CodeResponse.zero "RequestToken: " (StatusCode resp)) /\
  (~ In (StatusCode resp) spec_table_ExchangeCodeForToken ->
   forall codeResp clientID clientSecret,
     fst (Part001.RequestTokenContext env ctx codeResp clientID clientSecret w)
       = unexpected_status TokenResponse.zero "RequestToken: " (StatusCode resp) /\
     fst (TraktDeviceAuthGo.RequestTokenContext env ctx codeResp clientID clientSecret w)
       = unexpected_status TokenResponse.zero "RequestToken: " (StatusCode resp)) /\
  (~ In (StatusCode resp) spec_table_RefreshToken ->
   forall refreshToken clientID clientSecret,
     fst (Part001.RefreshAccessTokenContext env ctx refreshToken clientID clientSecret w)
       = unexpected_status TokenResponse.zero "RefreshToken: " (StatusCode resp)) /\
  (forall prefix,
     unclassified (Errorf_status prefix (StatusCode resp)) /\
     Error (Errorf_status prefix (StatusCode resp))
       = (prefix ++ "unexpected status code '" ++ Sprint_int (StatusCode resp) ++ "'")%string /\
     forall code', Errorf_status prefix code' = Errorf_status prefix (StatusCode resp) ->
                   code' = StatusCode resp).
Proof.
  intros Hr. pose proof Hr as (Hurl & _ & _).
  remember (StatusCode resp) as code eqn:Hcode.
  split; [intros H clientID; split
         | split; [intros H codeResp clientID clientSecret; split
                  | split; [intros H refreshToken clientID clientSecret
                           | intros prefix; split; [| split]]]].
  - unfold Part001.GenerateNewCodeContext.
    rewrite NewRequest_parses by exact Hurl. rewrite (Do_responds _ _ _ _ _ Hr).
    unfold deferred. rewrite <- Hcode.
    outside_table H spec_table_RequestDeviceCode. reflexivity.
  - unfold TraktDeviceAuthGo.GenerateNewCodeContext.
    rewrite NewRequest_parses by exact Hurl. rewrite (Do_responds _ _ _ _ _ Hr).
    unfold deferred. rewrite <- Hcode.
    outside_table H spec_table_RequestDeviceCode. reflexivity.
  - unfold Part001.RequestTokenContext.
    rewrite NewRequest_parses by exact Hurl. rewrite (Do_responds _ _ _ _ _ Hr).
    unfold deferred. rewrite <- Hcode.
    outside_table H spec_table_ExchangeCodeForToken. reflexivity.
  - unfold TraktDeviceAuthGo.RequestTokenContext.
    rewrite NewRequest_parses by exact Hurl. rewrite (Do_responds _ _ _ _ _ Hr).
    rewrite <- Hcode.
    outside_table H spec_table_ExchangeCodeForToken. reflexivity.
  - unfold Part001.RefreshAccessTokenContext.
    rewrite NewRequest_parses by exact Hurl. rewrite (Do_responds _ _ _ _ _ Hr).
    unfold deferred. rewrite <- Hcode.
    outside_table H spec_table_RefreshToken. reflexivity.
  - apply Errorf_status_unclassified.
  - reflexivity.
  - intros code' E. apply (Errorf_status_inj _ _ _ E).
Qed.

(** The claim C8 on a server that answers 302 to everything. *)
Lemma unlisted_status_302 :
  let env := Scenario.scripted [Scenario.status 302 ""] in
  fst (Part001.GenerateNewCodeContext env Background "id" world0)
    = unexpected_status CodeResponse.zero "RequestToken: " 302 /\
  fst (Part001.RequestTokenContext env Background Scenario.grant "id" "secret" world0)
    = unexpected_status TokenResponse.zero "RequestToken: " 302 /\
  fst (Part001.RefreshAccessTokenContext env Background "RT" "id" "secret" world0)
    = unexpected_status TokenResponse.zero "RefreshToken: " 302.
Proof.
  intro env.
  assert (Hr : responds env Background world0 (mkResponse 302 (Bytes ""))).
  { unfold responds. split; [reflexivity | split; [reflexivity | exact (fun _ => I)]]. }
  destruct (unlisted_status_is_unexpected env Background world0 _ Hr) as (H1 & H2 & H3 & _).
  split; [| split].
  - apply H1. cbv [In spec_table_RequestDeviceCode StatusCode].
    intros Hx; repeat (destruct Hx as [Hx|Hx]; [discriminate Hx|]); exact Hx.
  - apply H2. cbv [In spec_table_ExchangeCodeForToken StatusCode].
    intros Hx; repeat (destruct Hx as [Hx|Hx]; [discriminate Hx|]); exact Hx.
  - apply H3. cbv [In spec_table_RefreshToken StatusCode].
    intros Hx; repeat (destruct Hx as [Hx|Hx]; [discriminate Hx|]); exact Hx.
Defined.

(* ================================================================= *)
(** ** [part_001]: classification and release of the body *)

(** In [part_001] a 403 is [ErrForbidden] in each of the three
    operations, and so it is in the device-code request of
    [traktdeviceauth.go]. *)
Lemma forbidden_on_403 (env : Env) (ctx : Context) (w : World) (resp : Response) :
  responds env ctx w resp ->
  StatusCode resp = 403 ->
  (forall clientID,
     fst (Part001.GenerateNewCodeContext env ctx clientID w)
       = (CodeResponse.zero, Some (ESentinel ErrForbidden)) /\
     fst (TraktDeviceAuthGo.GenerateNewCodeContext env ctx clientID w)
       = (CodeResponse.zero, Some (ESentinel ErrForbidden))) /\
  (forall codeResp clientID clientSecret,
     fst (Part001.RequestTokenContext env ctx codeResp clientID clientSecret w)
       = (TokenResponse.zero, Some (ESentinel ErrForbidden))) /\
  (forall refreshToken clientID clientSecret,
     fst (Part001.RefreshAccessTokenContext env ctx refreshToken clientID clientSecret w)
       = (TokenResponse.zero, Some (ESentinel ErrForbidden))).
Proof.
  intros Hr Hcode. pose proof Hr as (Hurl & _ & _).
  split; [intros clientID; split | split; intros].
  - unfold Part001.GenerateNewCodeContext.
    rewrite NewRequest_parses by exact Hurl. rewrite (Do_responds _ _ _ _ _ Hr).
    unfold deferred. rewrite Hcode. reflexivity.
  - unfold TraktDeviceAuthGo.GenerateNewCodeContext.
    rewrite NewRequest_parses by exact Hurl. rewrite (Do_responds _ _ _ _ _ Hr).
    unfold deferred. rewrite Hcode. reflexivity.
  - unfold Part001.RequestTokenContext.
    rewrite NewRequest_parses by exact Hurl. rewrite (Do_responds _ _ _ _ _ Hr).
    unfold deferred. rewrite Hcode. reflexivity.
  - unfold Part001.RefreshAccessTokenContext.
    rewrite NewRequest_parses by exact Hurl. rewrite (Do_responds _ _ _ _ _ Hr).
    unfold deferred. rewrite Hcode. reflexivity.
Qed.

(** A deferred [Close] after a body that leaves the world alone gives
    back the body [Do] handed out. *)
Lemma deferred_Close_live {A : Type} (body : World -> A * World) (w0 w : World) :
  live_bodies w = S (live_bodies w0) ->
  (forall w, snd (body w) = w) ->
  live_bodies (snd (deferred Body_Close body w)) = live_bodies w0.
Proof.
  intros Hl Hb. unfold deferred. specialize (Hb w).
  destruct (body w) as [a w']. simpl in *. subst w'. now rewrite Hl.
Qed.

(** In [part_001] every exit of every operation leaves as many bodies
    open as it found: the error returns before a response exists, every
    branch of the [switch], a failed read, a failed decode, and success.
    The device-code request of [traktdeviceauth.go] does the same. *)
Lemma part_001_releases_body (env : Env) (ctx : Context) (w : World) :
  (forall clientID,
     live_bodies (snd (Part001.GenerateNewCodeContext env ctx clientID w)) = live_bodies w /\
     live_bodies (snd (TraktDeviceAuthGo.GenerateNewCodeContext env ctx clientID w))
       = live_bodies w) /\
  (forall codeResp clientID clientSecret,
     live_bodies (snd (Part001.RequestTokenContext env ctx codeResp clientID clientSecret w))
       = live_bodies w) /\
  (forall refreshToken clientID clientSecret,
     live_bodies (snd (Part001.RefreshAccessTokenContext env ctx refreshToken clientID
                         clientSecret w)) = live_bodies w).
Proof.
  split; [intros clientID; split | split; intros].
  all: match goal with
       | |- context [Part001.GenerateNewCodeContext] => unfold Part001.GenerateNewCodeContext
       | |- context [TraktDeviceAuthGo.GenerateNewCodeContext] =>
           unfold TraktDeviceAuthGo.GenerateNewCodeContext
       | |- context [Part001.RequestTokenContext] => unfold Part001.RequestTokenContext
       | |- context [Part001.RefreshAccessTokenContext] =>
           unfold Part001.RefreshAccessTokenContext
       end.
  all: match goal with
       | |- context [NewRequestWithContext ?e ?m ?u ?b] =>
           destruct (NewRequestWithContext e m u b) as [err|req]; [reflexivity|]
       end.
  all: match goal with
       | |- context [Do ?e ?c ?r ?w] =>
           pose proof (Do_live_bodies e c r w) as HD;
           destruct (Do e c r w) as [[err|resp] w1]; [exact HD|]
       end.
  all: apply deferred_Close_live; [exact HD|]; intros w2.
  all: each_case; try reflexivity.
  all: destruct (ReadAll resp) as [b [e|]]; try reflexivity.
  all: match goal with
       | |- context [Unmarshal.CodeResponse_ ?b ?z] =>
           destruct (Unmarshal.CodeResponse_ b z) as [x [e|]]; reflexivity
       | |- context [Unmarshal.internalTokenResponse_ ?b ?z] =>
           destruct (Unmarshal.internalTokenResponse_ b z) as [x [e|]]; reflexivity
       end.
Qed.

(* ================================================================= *)
(** ** Request bodies *)

(** With plain credentials the three bodies are the documents the wire
    protocol asks for, with its field names. *)
Lemma plain_credentials_give_documents :
  let env := Scenario.scripted [] in
  map JSON.parse (submitted (Part001.GenerateNewCodeContext env Background "id" world0))
    = [JSON.Ok (JSON.JObject [("client_id", JSON.JString "id")]%string) ""%string] /\
  map JSON.parse
      (submitted (Part001.RequestTokenContext env Background Scenario.grant "id" "secret" world0))
    = [JSON.Ok (JSON.JObject [("code", JSON.JString "abc"); ("client_id", JSON.JString "id");
                              ("client_secret", JSON.JString "secret")]%string) ""%string] /\
  map JSON.parse
      (submitted (Part001.RefreshAccessTokenContext env Background "RT" "id" "secret" world0))
    = [JSON.Ok (JSON.JObject [("refresh_token", JSON.JString "RT");
                              ("client_id", JSON.JString "id");
                              ("client_secret", JSON.JString "secret");
                              ("redirect_uri", JSON.JString "urn:ietf:wg:oauth:2.0:oob");
                              ("grant_type", JSON.JString "refresh_token")]%string) ""%string].
Proof. repeat split; vm_compute; reflexivity. Qed.

(** C10. There is an input, the one-character string made of a double
    quote, with which the body each operation submits is not a JSON
    document: as the client id of the device-code request, as the device
    code, the client id or the client secret of the exchange, and as the
    refresh token of the refresh, in [part_001] and in
    [traktdeviceauth.go] alike. The operands of [%s] are copied into the
    format without escaping. *)
Theorem quote_breaks_request_bodies :
  exists s : string,
    s = String JSON.dq EmptyString /\
    let env := Scenario.scripted [] in
    let broken (bodies : list string) :=
      exists b, bodies = [b] /\ JSON.parse b = JSON.Syntax /\ JSON.Valid b = false in
    broken (submitted (Part001.GenerateNewCodeContext env Background s world0)) /\
    broken (submitted (Part001.RequestTokenContext env Background
                         (CodeResponse.mk s "" "" 600 5) "id" "secret" world0)) /\
    broken (submitted (Part001.RequestTokenContext env Background Scenario.grant s "secret" world0)) /\
    broken (submitted (Part001.RequestTokenContext env Background Scenario.grant "id" s world0)) /\
    broken (submitted (Part001.RefreshAccessTokenContext env Background s "id" "secret" world0)) /\
    broken (submitted (TraktDeviceAuthGo.GenerateNewCodeContext env Background s world0)) /\
    broken (submitted (TraktDeviceAuthGo.RequestTokenContext env Background
                         Scenario.grant s "secret" world0)).
Proof.
  exists (String JSON.dq EmptyString). split; [reflexivity|].
  cbv zeta.
  repeat split; eexists; (split; [vm_compute; reflexivity | split; vm_compute; reflexivity]).
Qed.

(** A client id can also close its own string and add members: the body
    is then a document, but not the one with the single field
    [client_id] holding the client id. *)
Lemma quote_injects_members :
  let clientID := ("id" ++ quoted ", " ++ "admin" ++ quoted ": " ++ "yes")%string in
  map JSON.parse
      (submitted (Part001.GenerateNewCodeContext (Scenario.scripted []) Background clientID world0))
    = [JSON.Ok (JSON.JObject [("client_id", JSON.JString "id");
                              ("admin", JSON.JString "yes")]%string) ""%string].
Proof. vm_compute. reflexivity. Qed.

(* ================================================================= *)
(** ** The grant returned by the device-code request *)

(** C9 as stated fails: a 200 answer whose document has
    [expires_in: 0] and [interval: 0] is returned as it is, with a nil
    error. *)
Lemma grant_with_zero_lifetime_is_returned :
  let r := fst (Part001.GenerateNewCode
                  (Scenario.scripted [Scenario.status 200 (Scenario.code_document "0" "0")])
                  "id" world0) in
  r = (CodeResponse.mk "abc" "5055CC52" "https://trakt.tv/activate" 0 0, None) /\
  ~ (CodeResponse.ExpiresIn (fst r) > 0 /\ CodeResponse.Interval (fst r) > 0).
Proof.
  split; [vm_compute; reflexivity|].
  vm_compute. intros [H _]. discriminate H.
Qed.

(** C9, the claim as amended. A CodeResponse that GenerateNewCodeContext
    returns with a nil error is what [json.Unmarshal] makes of the body
    of a response with status 200, and nothing else is done to it: its
    [ExpiresIn] and [Interval] are the ones of the document, checked
    against nothing. *)
Theorem grant_is_decoded_body
    (env : Env) (ctx : Context) (clientID : string) (w w' : World)
    (codeResp : CodeResponse.t) :
  Part001.GenerateNewCodeContext env ctx clientID w = ((codeResp, None), w') ->
  exists req resp w1 b,
    Do env ctx req w = (inr resp, w1) /\
    ReqBody req = ("{" ++ quoted "client_id" ++ ": " ++ quoted clientID ++ "}")%string /\
    StatusCode resp = 200 /\
    Body resp = Bytes b /\
    Unmarshal.CodeResponse_ b CodeResponse.zero = (codeResp, None).
Proof.
  unfold Part001.GenerateNewCodeContext. intros H.
  destruct (NewRequestWithContext env "POST" _ _) as [e|req] eqn:HN;
    [unfold fails in H; discriminate H|].
  match type of H with
  | context [Do env ctx ?r w] => destruct (Do env ctx r w) as [[e|resp] w1] eqn:HD
  end; [unfold fails in H; discriminate H|].
  unfold deferred, fails in H.
  destruct (StatusCode resp =? 200) eqn:H200.
  - unfold ReadAll in H. destruct (Body resp) as [b|msg] eqn:HB; [|discriminate H].
    destruct (Unmarshal.CodeResponse_ b CodeResponse.zero) as [x [e|]] eqn:HU;
      [discriminate H|].
    injection H as Hx _. subst x.
    eexists _, resp, w1, b. split; [exact HD|].
    unfold NewRequestWithContext in HN.
    destruct (url_error env _); [discriminate HN|]. injection HN as <-.
    split; [reflexivity|]. split; [now apply Z.eqb_eq|]. split; [exact HB | exact HU].
  - repeat match type of H with
    | context [if ?b then _ else _] => destruct b
    end; discriminate H.
Qed.

(** The amended claim on a server that answers 200 with a grant of 600
    seconds polled every 5 seconds. *)
Lemma grant_is_decoded_body_600_5 :
  exists req resp w1 b,
    Do (Scenario.scripted [Scenario.status 200 (Scenario.code_document "600" "5")])
       Background req world0 = (inr resp, w1) /\
    ReqBody req = ("{" ++ quoted "client_id" ++ ": " ++ quoted "id" ++ "}")%string /\
    StatusCode resp = 200 /\
    Body resp = Bytes b /\
    Unmarshal.CodeResponse_ b CodeResponse.zero = (Scenario.grant, None).
Proof.
  eapply (grant_is_decoded_body
            (Scenario.scripted [Scenario.status 200 (Scenario.code_document "600" "5")])
            Background "id" world0).
  vm_compute. reflexivity.
Defined.

(* ================================================================= *)
(** ** The [select] of the poll loop *)

Lemma select_ctx_done (env : Env) (ctx : Context) (dur : Duration) (w : World) (d : Z) :
  done_at ctx = Some d ->
  Z.max d (now w) < now w + Z.max 0 dur ->
  select env ctx dur w = (CtxDone, selected_at w (Z.max d (now w))).
Proof.
  intros Hd Hlt. unfold select. rewrite Hd.
  destruct (Z.ltb_spec (Z.max d (now w)) (now w + Z.max 0 dur)); [reflexivity | lia].
Qed.

Lemma select_sent (env : Env) (ctx : Context) (dur : Duration) (w : World) :
  sent (snd (select env ctx dur w)) = sent w.
Proof.
  unfold select. destruct (done_at ctx); [|reflexivity].
  each_case; reflexivity.
Qed.

(** The context the loop runs with is done no later than the deadline
    computed on entry, and no later than a cancellation of the caller. *)
Lemma done_at_WithDeadline (ctx : Context) (D : Z) :
  exists d, done_at (WithDeadline ctx D) = Some d /\ d <= D /\
            (forall c, canceled_at ctx = Some c -> d <= c).
Proof.
  unfold done_at, WithDeadline. cbn [deadline canceled_at].
  destruct (deadline ctx) as [p|], (canceled_at ctx) as [c|];
    eexists; (split; [reflexivity|]); split; try lia;
    intros c' E; try discriminate E; injection E as <-; lia.
Qed.

(** When the context is done before the next tick the loop of either
    file returns the "exceeded context" error without an attempt. *)
Lemma poll_loop_ctx_done (fuel : nat) (env : Env) (ctx : Context)
    (codeResp : CodeResponse.t) (clientID clientSecret : string) (w : World) (d : Z) :
  done_at ctx = Some d ->
  Z.max d (now w) < next_tick codeResp w ->
  Part001.poll_loop (S fuel) env ctx codeResp clientID clientSecret w
    = Some ((TokenResponse.zero, Some exceeded_context), selected_at w (Z.max d (now w))) /\
  TraktDeviceAuthGo.poll_loop (S fuel) env ctx codeResp clientID clientSecret w
    = Some ((TokenResponse.zero, Some exceeded_context), selected_at w (Z.max d (now w))).
Proof.
  intros Hd Hlt. unfold next_tick in Hlt.
  cbn [Part001.poll_loop TraktDeviceAuthGo.poll_loop].
  rewrite (select_ctx_done _ _ _ _ _ Hd Hlt). split; reflexivity.
Qed.

(** *** Cancellation *)

(** C3 as stated fails. A caller that cancels 3 s into the first wait of
    a 600 s grant, and a 3 s grant whose deadline elapses in the first
    wait with nobody cancelling, get the same result: the zero token and
    the same error value. Nothing in it tells the two apart. *)
Lemma cancellation_reported_as_deadline :
  let env := Scenario.scripted [] in
  let canceled := mkContext None (Some 3000000000) in
  let short_grant := CodeResponse.mk "abc" "5055CC52" "https://trakt.tv/activate" 3 5 in
  Part001.PollForAuthTokenContext 1 env canceled Scenario.grant "id" "secret" world0
    = Some ((TokenResponse.zero, Some exceeded_context), mkWorld 3000000000 [] 0 1) /\
  Part001.PollForAuthTokenContext 1 env Background short_grant "id" "secret" world0
    = Some ((TokenResponse.zero, Some exceeded_context), mkWorld 3000000000 [] 0 1) /\
  TraktDeviceAuthGo.PollForAuthTokenContext 1 env canceled Scenario.grant "id" "secret" world0
    = TraktDeviceAuthGo.PollForAuthTokenContext 1 env Background short_grant "id" "secret" world0.
Proof. repeat split; vm_compute; reflexivity. Qed.

(** C3, the claim as amended. If the caller cancels its context at an
    instant [c] of a wait of the poll (the wait starts in [w], [c] is
    before the next tick), the loop returns at an instant no later than
    [c], so within that tick, with no further exchange. The result is
    the zero token and the "exceeded context" error; the same value is
    returned when the deadline elapses in a wait and nobody cancelled. *)
Theorem cancellation_aborts_wait (fuel : nat) (env : Env) (ctx : Context)
    (codeResp : CodeResponse.t) (clientID clientSecret : string) (w : World) (D c : Z) :
  canceled_at ctx = Some c ->
  now w <= c ->
  c < next_tick codeResp w ->
  (exists t, now w <= t <= c /\
     Part001.poll_loop (S fuel) env (WithDeadline ctx D) codeResp clientID clientSecret w
       = Some ((TokenResponse.zero, Some exceeded_context), selected_at w t) /\
     TraktDeviceAuthGo.poll_loop (S fuel) env (WithDeadline ctx D) codeResp clientID
         clientSecret w
       = Some ((TokenResponse.zero, Some exceeded_context), selected_at w t)) /\
  (forall w0 D0, Z.max D0 (now w0) < next_tick codeResp w0 ->
     option_map fst
       (Part001.poll_loop (S fuel) env (WithDeadline Background D0) codeResp clientID
          clientSecret w0)
       = Some (TokenResponse.zero, Some exceeded_context)).
Proof.
  intros Hc Hle Hlt. split.
  - destruct (done_at_WithDeadline ctx D) as (d & Hd & _ & Hdc).
    specialize (Hdc c Hc).
    exists (Z.max d (now w)). split; [lia|].
    apply poll_loop_ctx_done; [exact Hd | lia].
  - intros w0 D0 H0.
    destruct (poll_loop_ctx_done fuel env (WithDeadline Background D0) codeResp
                clientID clientSecret w0 D0 eq_refl H0) as [-> _].
    reflexivity.
Qed.

(** The amended claim on the grant of 600 s polled every 5 s, cancelled
    3 s into its first wait. *)
Lemma cancellation_aborts_wait_at_3s :
  (exists t, 0 <= t <= 3000000000 /\
     Part001.poll_loop 1 (Scenario.scripted []) 
       (WithDeadline (mkContext None (Some 3000000000)) 600000000000)
       Scenario.grant "id" "secret" world0
       = Some ((TokenResponse.zero, Some exceeded_context), selected_at world0 t) /\
     TraktDeviceAuthGo.poll_loop 1 (Scenario.scripted [])
       (WithDeadline (mkContext None (Some 3000000000)) 600000000000)
       Scenario.grant "id" "secret" world0
       = Some ((TokenResponse.zero, Some exceeded_context), selected_at world0 t)) /\
  (forall w0 D0, Z.max D0 (now w0) < next_tick Scenario.grant w0 ->
     option_map fst
       (Part001.poll_loop 1 (Scenario.scripted []) (WithDeadline Background D0)
          Scenario.grant "id" "secret" w0)
       = Some (TokenResponse.zero, Some exceeded_context)).
Proof.
  apply (cancellation_aborts_wait 0 (Scenario.scripted [])
           (mkContext None (Some 3000000000)) Scenario.grant "id" "secret" world0
           600000000000 3000000000).
  - reflexivity.
  - vm_compute. discriminate.
  - vm_compute. reflexivity.
Defined.

(* ================================================================= *)
(** ** The deadline of the poll *)

(** [Do] submits at most one request, and none once the context is done. *)
Lemma Do_sent (env : Env) (ctx : Context) (req : Request) (w : World) :
  exists new,
    sent (snd (Do env ctx req w)) = sent w ++ new /\
    Forall (fun tr => forall d, done_at ctx = Some d -> fst tr < d) new.
Proof.
  unfold Do.
  destruct (done_at ctx) as [d|] eqn:Hd.
  - destruct (Z.leb_spec d (now w)).
    + exists []. split; [symmetry; apply app_nil_r | constructor].
    + exists [(now w, req)]. split.
      * each_case; try reflexivity. destruct (outcome _); reflexivity.
      * constructor; [|constructor]. intros d' E. injection E as <-. exact H.
  - exists [(now w, req)]. split.
    + destruct (outcome _); reflexivity.
    + constructor; [|constructor]. intros d' E. discriminate E.
Qed.

Lemma deferred_Close_sent {A : Type} (body : World -> A * World) (w : World) :
  (forall w, snd (body w) = w) ->
  sent (snd (deferred Body_Close body w)) = sent w.
Proof.
  intros Hb. unfold deferred. specialize (Hb w).
  destruct (body w) as [a w']. simpl in *. now subst w'.
Qed.

(** An exchange of [part_001] submits at most one request, before the
    context is done. *)
Lemma exchange_sent (env : Env) (ctx : Context) (codeResp : CodeResponse.t)
    (clientID clientSecret : string) (w : World) :
  exists new,
    sent (snd (Part001.RequestTokenContext env ctx codeResp clientID clientSecret w))
      = sent w ++ new /\
    Forall (fun tr => forall d, done_at ctx = Some d -> fst tr < d) new.
Proof.
  unfold Part001.RequestTokenContext.
  destruct (NewRequestWithContext env "POST" _ _) as [e|req].
  { exists []. split; [symmetry; apply app_nil_r | constructor]. }
  match goal with
  | |- context [Do ?e ?c ?r ?w] =>
      destruct (Do_sent e c r w) as (new & Hs & Hf);
      destruct (Do e c r w) as [[err|resp] w1]
  end.
  - exists new. split; [exact Hs | exact Hf].
  - exists new. split; [|exact Hf]. simpl in Hs. rewrite <- Hs.
    apply deferred_Close_sent. intros w2.
    each_case; try reflexivity.
    destruct (ReadAll resp) as [b [e|]]; try reflexivity.
    destruct (Unmarshal.internalTokenResponse_ b _) as [x [e|]]; reflexivity.
Qed.

(** Every request the loop of [part_001] submits is submitted before
    its context is done, however many attempts were answered "not yet
    claimed" before. *)
Lemma poll_loop_sent (env : Env) (ctx : Context) (codeResp : CodeResponse.t)
    (clientID clientSecret : string) (fuel : nat) :
  forall (w w' : World) r,
    Part001.poll_loop fuel env ctx codeResp clientID clientSecret w = Some (r, w') ->
    exists new,
      sent w' = sent w ++ new /\
      Forall (fun tr => forall d, done_at ctx = Some d -> fst tr < d) new.
Proof.
  induction fuel as [|fuel IH]; intros w w' r H; [discriminate H|].
  cbn [Part001.poll_loop] in H.
  pose proof (select_sent env ctx (seconds (CodeResponse.Interval codeResp)) w) as Hsel.
  destruct (select env ctx _ w) as [[|] w1]; simpl in Hsel.
  - destruct (exchange_sent env ctx codeResp clientID clientSecret w1) as (new & Hs & Hf).
    destruct (Part001.RequestTokenContext env ctx codeResp clientID clientSecret w1)
      as [[resp err] w2]. simpl in Hs. rewrite Hsel in Hs.
    destruct err as [e|].
    + destruct (negb (errors_Is (Some e) ErrDeviceCodeUnclaimed)).
      * injection H as _ <-. exists new. split; assumption.
      * destruct (IH _ _ _ H) as (new' & Hs' & Hf').
        exists (new ++ new'). split.
        -- rewrite Hs', Hs. symmetry. apply app_assoc.
        -- apply Forall_app. split; assumption.
    + injection H as _ <-. exists new. split; assumption.
  - injection H as _ <-. exists []. split; [rewrite Hsel; symmetry; apply app_nil_r | constructor].
Qed.

(** The "exceeded context" error is none of the classified outcomes, wraps
    none, and is neither the wrapper of a fatal error nor an
    "unexpected status" error of the exchange. *)
Lemma exceeded_context_distinct :
  (forall s, exceeded_context <> ESentinel s) /\
  unclassified exceeded_context /\
  (forall e, exceeded_context <> Errorf_w "PollForAuthToken: " (Some e)) /\
  (forall code, exceeded_context <> Errorf_status "RequestToken: " code).
Proof.
  split; [intros s; discriminate|]. split; [intros s; reflexivity|].
  split; [intros e; discriminate|].
  intros code E. unfold exceeded_context, Errorf_status in E. discriminate E.
Qed.

(** C4 as stated fails. With [ExpiresIn = 9223372037] the product
    [time.Second * time.Duration(ExpiresIn)] wraps: the deadline computed
    on entry is 9223372036.7 s before the current time, not 9223372037 s
    after it, and the poll gives up in its first wait. *)
Lemma deadline_wraps_long_lifetime :
  let codeResp := CodeResponse.mk "abc" "5055CC52" "https://trakt.tv/activate" 9223372037 5 in
  Part001.poll_deadline codeResp world0 = -9223372036709551616 /\
  Part001.poll_deadline codeResp world0
    <> now world0 + 1000000000 * CodeResponse.ExpiresIn codeResp /\
  Part001.PollForAuthToken 1 (Scenario.scripted [Scenario.status 200 Scenario.token_document])
      codeResp "id" "secret" world0
    = Some ((TokenResponse.zero, Some exceeded_context), mkWorld 0 [] 0 1).
Proof.
  cbv zeta. split; [reflexivity|]. split; [vm_compute; discriminate|].
  vm_compute. reflexivity.
Qed.

(** C4, the claim as amended. For a grant whose [ExpiresIn] is a number
    of seconds a [time.Duration] holds, the deadline computed on entry
    (in either file) is the current time plus [ExpiresIn] seconds, and
    the loop runs with that one deadline: every request of the poll of
    [part_001], after any number of "not yet claimed" answers, is
    submitted before it; and at every wait in which it elapses before
    the next tick the loop (of either file) returns the "exceeded
    context" error, which is no package-level classification, wraps
    none, and is not the wrapper of a fatal error. *)
Theorem deadline_fixed_on_entry (fuel : nat) (env : Env) (ctx : Context)
    (codeResp : CodeResponse.t) (clientID clientSecret : string) (w : World) :
  fits_Duration (CodeResponse.ExpiresIn codeResp) ->
  let D := now w + 1000000000 * CodeResponse.ExpiresIn codeResp in
  Part001.poll_deadline codeResp w = D /\
  TraktDeviceAuthGo.poll_deadline codeResp w = D /\
  Part001.PollForAuthTokenContext fuel env ctx codeResp clientID clientSecret w
    = Part001.poll_loop fuel env (WithDeadline ctx D) codeResp clientID clientSecret w /\
  TraktDeviceAuthGo.PollForAuthTokenContext fuel env ctx codeResp clientID clientSecret w
    = TraktDeviceAuthGo.poll_loop fuel env (WithDeadline ctx D) codeResp clientID
        clientSecret w /\
  (forall r w',
     Part001.PollForAuthTokenContext fuel env ctx codeResp clientID clientSecret w
       = Some (r, w') ->
     exists new, sent w' = sent w ++ new /\ Forall (fun tr => fst tr < D) new) /\
  (forall n w1,
     Z.max D (now w1) < next_tick codeResp w1 ->
     exists t, t <= Z.max D (now w1) /\
       Part001.poll_loop (S n) env (WithDeadline ctx D) codeResp clientID clientSecret w1
         = Some ((TokenResponse.zero, Some exceeded_context), selected_at w1 t) /\
       TraktDeviceAuthGo.poll_loop (S n) env (WithDeadline ctx D) codeResp clientID
           clientSecret w1
         = Some ((TokenResponse.zero, Some exceeded_context), selected_at w1 t)) /\
  (forall s, exceeded_context <> ESentinel s) /\
  unclassified exceeded_context /\
  (forall e, exceeded_context <> Errorf_w "PollForAuthToken: " (Some e)).
Proof.
  intros Hfit D.
  assert (HD : Part001.poll_deadline codeResp w = D)
    by (unfold Part001.poll_deadline; now rewrite seconds_exact).
  assert (HD' : TraktDeviceAuthGo.poll_deadline codeResp w = D) by exact HD.
  split; [exact HD|]. split; [exact HD'|].
  split; [unfold Part001.PollForAuthTokenContext; now rewrite HD|].
  split; [unfold TraktDeviceAuthGo.PollForAuthTokenContext; now rewrite HD'|].
  split; [|split].
  - intros r w' H. unfold Part001.PollForAuthTokenContext in H. rewrite HD in H.
    destruct (poll_loop_sent _ _ _ _ _ _ _ _ _ H) as (new & Hs & Hf).
    exists new. split; [exact Hs|].
    destruct (done_at_WithDeadline ctx D) as (d & Hd & HdD & _).
    eapply Forall_impl; [|exact Hf]. cbv beta. intros tr Htr.
    specialize (Htr d Hd). lia.
  - intros n w1 Hlt.
    destruct (done_at_WithDeadline ctx D) as (d & Hd & HdD & _).
    exists (Z.max d (now w1)). split; [lia|].
    apply poll_loop_ctx_done; [exact Hd | lia].
  - destruct exceeded_context_distinct as (H1 & H2 & H3 & _).
    split; [exact H1 | split; [exact H2 | exact H3]].
Qed.

(** The amended claim on the grant of 600 s: the deadline is 600 s after
    the start, and every request of a poll that starts at instant 0 is
    submitted before it. *)
Lemma deadline_fixed_on_entry_600s :
  let env := Scenario.scripted
               [Scenario.status 400 ""; Scenario.status 400 "";
                Scenario.status 200 Scenario.token_document] in
  Part001.poll_deadline Scenario.grant world0 = 600000000000 /\
  (forall r w',
     Part001.PollForAuthTokenContext 3 env Background Scenario.grant "id" "secret" world0
       = Some (r, w') ->
     exists new, sent w' = sent world0 ++ new /\
                 Forall (fun tr => fst tr < 600000000000) new).
Proof.
  intro env.
  assert (Hfit : fits_Duration (CodeResponse.ExpiresIn Scenario.grant))
    by (unfold fits_Duration, maxDurationSeconds; simpl; lia).
  pose proof (deadline_fixed_on_entry 3 env Background Scenario.grant "id" "secret"
                world0 Hfit) as H.
  cbv zeta in H. destruct H as (H1 & _ & _ & _ & H5 & _).
  split; [exact H1 | exact H5].
Defined.

(* ================================================================= *)
(** ** The outcomes of the poll of [part_001] *)

(** Whatever the poll loop of [part_001] returns is one of three things:
    - the token of an exchange that returned a nil error, with a nil
      error, in the world that exchange left;
    - the zero token and an error wrapping the error of an exchange,
      that error not being "not yet claimed", in the world that exchange
      left (no attempt follows);
    - the zero token and the "exceeded context" error. *)
Lemma part_001_poll_outcomes (env : Env) (ctx : Context) (codeResp : CodeResponse.t)
    (clientID clientSecret : string) (fuel : nat) :
  forall (w w' : World) r,
    Part001.poll_loop fuel env ctx codeResp clientID clientSecret w = Some (r, w') ->
    (exists w1 token,
       Part001.RequestTokenContext env ctx codeResp clientID clientSecret w1
         = ((token, None), w') /\
       r = (token, None)) \/
    (exists w1 token e,
       Part001.RequestTokenContext env ctx codeResp clientID clientSecret w1
         = ((token, Some e), w') /\
       errors_Is (Some e) ErrDeviceCodeUnclaimed = false /\
       r = (TokenResponse.zero, Some (EWrap ("PollForAuthToken: " ++ Error e) e))) \/
    r = (TokenResponse.zero, Some exceeded_context).
Proof.
  induction fuel as [|fuel IH]; intros w w' r H; [discriminate H|].
  cbn [Part001.poll_loop] in H.
  destruct (select env ctx _ w) as [[|] w1].
  - destruct (Part001.RequestTokenContext env ctx codeResp clientID clientSecret w1)
      as [[resp err] w2] eqn:HR.
    destruct err as [e|].
    + destruct (errors_Is (Some e) ErrDeviceCodeUnclaimed) eqn:HI; cbn [negb] in H.
      * exact (IH _ _ _ H).
      * injection H as <- <-. right. left. exists w1, resp, e.
        split; [exact HR | split; [exact HI | reflexivity]].
    + injection H as <- <-. left. exists w1, resp. split; [exact HR | reflexivity].
  - injection H as <- _. right. right. reflexivity.
Qed.

(** An exchange of [part_001] that fails returns the zero token. *)
Lemma part_001_exchange_error_zero (env : Env) (ctx : Context) (codeResp : CodeResponse.t)
    (clientID clientSecret : string) (w : World) :
  snd (fst (Part001.RequestTokenContext env ctx codeResp clientID clientSecret w)) <> None ->
  fst (fst (Part001.RequestTokenContext env ctx codeResp clientID clientSecret w))
    = TokenResponse.zero.
Proof.
  unfold Part001.RequestTokenContext.
  destruct (NewRequestWithContext env "POST" _ _) as [e|req]; [reflexivity|].
  match goal with
  | |- context [Do ?e ?c ?r ?w] => destruct (Do e c r w) as [[err|resp] w1]
  end; [reflexivity|].
  unfold deferred. each_case; try reflexivity.
  destruct (ReadAll resp) as [b [e|]]; try reflexivity.
  destruct (Unmarshal.internalTokenResponse_ b _) as [x [e|]]; try reflexivity.
  intros H. now elim H.
Qed.

(** A token that an exchange returns with a nil error is never the zero
    token: its times are made by [time.Unix] and carry the local
    location. A nil error of the poll of [part_001] therefore never comes
    with the zero token. *)
Lemma part_001_token_not_zero (env : Env) (ctx : Context) (codeResp : CodeResponse.t)
    (clientID clientSecret : string) (w w' : World) (token : TokenResponse.t) :
  Part001.RequestTokenContext env ctx codeResp clientID clientSecret w = ((token, None), w') ->
  token <> TokenResponse.zero.
Proof.
  unfold Part001.RequestTokenContext. intros H.
  destruct (NewRequestWithContext env "POST" _ _) as [e|req];
    [unfold fails in H; discriminate H|].
  match type of H with
  | context [Do ?e ?c ?r ?w] => destruct (Do e c r w) as [[err|resp] w1]
  end; [unfold fails in H; discriminate H|].
  unfold deferred, fails in H.
  destruct (StatusCode resp =? 200).
  - destruct (ReadAll resp) as [b [e|]]; [discriminate H|].
    destruct (Unmarshal.internalTokenResponse_ b _) as [x [e|]]; [discriminate H|].
    injection H as <- _. unfold transformInternalTokenResponse, TokenResponse.zero.
    intros E. apply (f_equal TokenResponse.CreatedAt) in E.
    cbn [TokenResponse.CreatedAt] in E. rewrite time_Unix_whole in E.
    apply (f_equal loc) in E. discriminate E.
  - repeat match type of H with
    | context [if ?b then _ else _] => destruct b
    end; discriminate H.
Qed.

(** The two scenarios of the specification on [part_001]: answers 400,
    400, 200 give the token after exactly three attempts; a first answer
    418 gives the "denied" classification, wrapped, after exactly one. *)
Lemma part_001_scenarios :
  option_map (fun r => (fst r, length (sent (snd r))))
    (Part001.PollForAuthToken 3
       (Scenario.scripted [Scenario.status 400 ""; Scenario.status 400 "";
                           Scenario.status 200 Scenario.token_document])
       Scenario.grant "id" "secret" world0)
    = Some ((Scenario.the_token, None), 3%nat) /\
  option_map (fun r => (fst r, length (sent (snd r))))
    (Part001.PollForAuthToken 1 (Scenario.scripted [Scenario.status 418 ""])
       Scenario.grant "id" "secret" world0)
    = Some ((TokenResponse.zero,
             Some (EWrap "PollForAuthToken: the device code was denied by the user"
                     (ESentinel ErrDeviceCodeDenied))), 1%nat) /\
  Time_Unix (TokenResponse.ExpiresAt Scenario.the_token) = 1700000000 + 7776000.
Proof. repeat split; vm_compute; reflexivity. Qed.

(** A grant of 12 s polled every 5 s and never claimed: two attempts,
    then the "exceeded context" error at the deadline. *)
Lemma part_001_unclaimed_until_deadline :
  option_map (fun r => (fst r, now (snd r), length (sent (snd r))))
    (Part001.PollForAuthToken 3 (Scenario.scripted [])
       (CodeResponse.mk "abc" "5055CC52" "https://trakt.tv/activate" 12 5)
       "id" "secret" world0)
    = Some ((TokenResponse.zero, Some exceeded_context), 12000000000, 2%nat).
Proof. vm_compute. reflexivity. Qed.

(* ================================================================= *)
(** ** The parser: it consumes its input and never runs out of budget *)

Lemma skip_ws_length (s : string) :
  (String.length (JSON.skip_ws s) <= String.length s)%nat.
Proof. induction s as [|a s IH]; simpl; [lia|]. destruct (JSON.is_ws a); simpl; lia. Qed.

Lemma starts_with_length (c : ascii) (s r : string) :
  JSON.starts_with c s = Some r -> String.length s = S (String.length r).
Proof.
  destruct s as [|a s]; simpl; [discriminate|].
  destruct (Ascii.eqb a c); [|discriminate]. intros [= <-]. reflexivity.
Qed.

Lemma strip_prefix_length (p : string) :
  forall s r, JSON.strip_prefix p s = Some r -> (String.length r <= String.length s)%nat.
Proof.
  induction p as [|a p IH]; simpl; intros s r H.
  - injection H as <-. lia.
  - destruct s as [|b s]; [discriminate|].
    destruct (Ascii.eqb a b); [|discriminate]. apply IH in H. simpl. lia.
Qed.

Lemma digits_length (s : string) :
  forall acc n v k r, JSON.digits s acc n = (v, k, r) ->
    (String.length r <= String.length s)%nat.
Proof.
  induction s as [|a s IH]; simpl; intros acc n v k r H.
  - injection H as _ _ <-. simpl. lia.
  - destruct (JSON.digit_of a).
    + apply IH in H. lia.
    + injection H as _ _ <-. simpl. lia.
Qed.

Ltac break_all :=
  repeat match goal with
  | H : context [match ?x with _ => _ end] |- _ => destruct x eqn:?; try discriminate
  end.

Ltac lengths :=
  repeat match goal with
  | E : JSON.skip_ws ?x = _ |- _ =>
      let L := fresh in pose proof (skip_ws_length x) as L; rewrite E in L; clear E
  | E : JSON.starts_with _ _ = Some _ |- _ => apply starts_with_length in E
  | E : JSON.digits _ _ _ = _ |- _ => apply digits_length in E
  | E : JSON.strip_prefix _ _ = Some _ |- _ => apply strip_prefix_length in E
  | E : Some _ = Some _ |- _ => injection E as ? ?; subst
  | E : (_, _) = (_, _) |- _ => injection E as ? ?; subst
  end;
  repeat match goal with
  | |- context [JSON.skip_ws ?x] =>
      lazymatch goal with
      | _ : (String.length (JSON.skip_ws x) <= _)%nat |- _ => fail
      | _ => pose proof (skip_ws_length x)
      end
  | _ : context [JSON.skip_ws ?x] |- _ =>
      lazymatch goal with
      | _ : (String.length (JSON.skip_ws x) <= _)%nat |- _ => fail
      | _ => pose proof (skip_ws_length x)
      end
  end;
  cbn [String.length] in *; try lia.

Lemma parse_tail_length (neg : bool) (v : Z) (s r : string) (x : JSON.value) :
  JSON.parse_tail neg v s = Some (x, r) -> (String.length r <= String.length s)%nat.
Proof.
  unfold JSON.parse_tail. intros H. break_all; lengths.
Qed.

Lemma parse_number_length (s r : string) (x : JSON.value) :
  JSON.parse_number s = Some (x, r) -> (String.length r <= String.length s)%nat.
Proof.
  unfold JSON.parse_number. intros H. break_all.
  all: repeat match goal with
       | E : JSON.parse_tail _ _ _ = Some _ |- _ => apply parse_tail_length in E
       end.
  all: lengths.
Qed.

Lemma parse_chars_length (n : nat) :
  forall s t r, (String.length s <= n)%nat -> JSON.parse_chars s = Some (t, r) ->
    (String.length r < String.length s)%nat.
Proof.
  induction n as [|n IH]; intros s t r Hn H.
  - destruct s; [discriminate H | simpl in Hn; lia].
  - destruct s as [|c s]; [discriminate H|].
    cbn [JSON.parse_chars] in H. break_all.
    all: repeat match goal with
         | E : JSON.parse_chars ?x = Some (_, _) |- _ =>
             apply IH in E; [|cbn [String.length] in *; lia]
         end.
    all: lengths.
Qed.

Ltac results IHv IHe IHm :=
  repeat match goal with
  | E : JSON.parse_value _ _ = JSON.Ok _ _ |- _ => apply IHv in E
  | E : JSON.parse_elements _ _ = JSON.Ok _ _ |- _ => apply IHe in E
  | E : JSON.parse_members _ _ = JSON.Ok _ _ |- _ => apply IHm in E
  | E : JSON.parse_chars ?x = Some _ |- _ =>
      apply (parse_chars_length (String.length x)) in E; [|lia]
  | E : JSON.parse_number _ = Some _ |- _ => apply parse_number_length in E
  | E : JSON.Ok _ _ = JSON.Ok _ _ |- _ => injection E as ? ?; subst
  end.

(** A parser never returns more input than it was given. *)
Lemma parse_lengths (f : nat) :
  (forall s v r, JSON.parse_value f s = JSON.Ok v r ->
     (String.length r <= String.length s)%nat) /\
  (forall s vs r, JSON.parse_elements f s = JSON.Ok vs r ->
     (String.length r <= String.length s)%nat) /\
  (forall s ms r, JSON.parse_members f s = JSON.Ok ms r ->
     (String.length r <= String.length s)%nat).
Proof.
  induction f as [|f (IHv & IHe & IHm)].
  - repeat split; intros; discriminate.
  - repeat split; intros s x r H.
    + cbn [JSON.parse_value] in H. unfold JSON.lift in H. break_all.
      all: results IHv IHe IHm; lengths.
    + cbn [JSON.parse_elements] in H. break_all.
      all: results IHv IHe IHm; lengths.
    + cbn [JSON.parse_members] in H. break_all.
      all: results IHv IHe IHm; lengths.
Qed.

(** The budget [parse] gives is never used up: a verdict [Syntax] or a
    value is returned on every input. *)
Lemma parse_budget (f : nat) :
  (forall s, (2 * String.length s + 1 <= f)%nat -> JSON.parse_value f s <> JSON.Fuel) /\
  (forall s, (2 * String.length s + 2 <= f)%nat -> JSON.parse_elements f s <> JSON.Fuel) /\
  (forall s, (2 * String.length s + 2 <= f)%nat -> JSON.parse_members f s <> JSON.Fuel).
Proof.
  induction f as [|f (IHv & IHe & IHm)].
  - repeat split; intros s Hf; lia.
  - destruct (parse_lengths f) as (Lv & Le & Lm).
    repeat split; intros s Hf H.
    + cbn [JSON.parse_value] in H. unfold JSON.lift in H. break_all.
      all: results Lv Le Lm.
      all: match goal with
           | E : JSON.parse_members _ _ = JSON.Fuel |- _ => revert E; apply IHm
           | E : JSON.parse_elements _ _ = JSON.Fuel |- _ => revert E; apply IHe
           | E : JSON.parse_value _ _ = JSON.Fuel |- _ => revert E; apply IHv
           end.
      all: lengths.
    + cbn [JSON.parse_elements] in H. break_all.
      all: results Lv Le Lm.
      all: match goal with
           | E : JSON.parse_members _ _ = JSON.Fuel |- _ => revert E; apply IHm
           | E : JSON.parse_elements _ _ = JSON.Fuel |- _ => revert E; apply IHe
           | E : JSON.parse_value _ _ = JSON.Fuel |- _ => revert E; apply IHv
           end.
      all: lengths.
    + cbn [JSON.parse_members] in H. break_all.
      all: results Lv Le Lm.
      all: match goal with
           | E : JSON.parse_members _ _ = JSON.Fuel |- _ => revert E; apply IHm
           | E : JSON.parse_elements _ _ = JSON.Fuel |- _ => revert E; apply IHe
           | E : JSON.parse_value _ _ = JSON.Fuel |- _ => revert E; apply IHv
           end.
      all: lengths.
Qed.

Lemma parse_decides (s : string) : JSON.parse s <> JSON.Fuel.
Proof.
  unfold JSON.parse. intros H.
  destruct (JSON.parse_value _ _) eqn:E; break_all; try discriminate.
  revert E. apply parse_budget. pose proof (skip_ws_length s). lia.
Qed.

(* ================================================================= *)
(** ** The poll of [part_001]: retry and termination *)


Lemma select_now (env : Env) (ctx : Context) (dur : Duration) (w : World) :
  match select env ctx dur w with
  | (TimerFired, w1) => now w1 = now w + Z.max 0 dur
  | (CtxDone, w1) => True
  end.
Proof.
  unfold select. destruct (done_at ctx); [|reflexivity].
  each_case; first [reflexivity | exact I].
Qed.

(** The clock does not run backwards during a request. *)
Lemma Do_now (env : Env) (ctx : Context) (req : Request) (w : World) :
  now w <= now (snd (Do env ctx req w)).
Proof.
  unfold Do. destruct (done_at ctx) as [d|].
  - destruct (Z.leb_spec d (now w)); [simpl; lia|].
    destruct (Z.ltb_spec d (now w + Z.max 0 (latency (server env (length (sent w)) req))));
      [simpl; lia|].
    destruct (outcome _); simpl; lia.
  - destruct (outcome _); simpl; lia.
Qed.

(** The clock does not run backwards during an exchange. *)
Lemma exchange_now (env : Env) (ctx : Context) (codeResp : CodeResponse.t)
    (clientID clientSecret : string) (w : World) :
  now w <= now (snd (Part001.RequestTokenContext env ctx codeResp clientID clientSecret w)).
Proof.
  unfold Part001.RequestTokenContext.
  destruct (NewRequestWithContext env "POST" _ _) as [e|req]; [simpl; lia|].
  match goal with
  | |- context [Do ?e ?c ?r ?w] =>
      pose proof (Do_now e c r w) as HD;
      destruct (Do e c r w) as [[err|resp] w1]; [exact HD|]
  end.
  simpl in HD. unfold deferred.
  each_case; try exact HD.
  destruct (ReadAll resp) as [b [e|]]; try exact HD.
  destruct (Unmarshal.internalTokenResponse_ b _) as [x [e|]]; exact HD.
Qed.

(** The poll of [part_001] returns. With a tick of positive length and a
    context that is done at [dn], a loop that starts in [w] has returned
    after at most [(dn - now w) / tick + 1] iterations, whatever the
    server answers. *)
Lemma part_001_poll_returns (env : Env) (ctx : Context) (codeResp : CodeResponse.t)
    (clientID clientSecret : string) (dn : Z) :
  done_at ctx = Some dn ->
  0 < seconds (CodeResponse.Interval codeResp) ->
  forall (fuel : nat) (w : World),
    dn - now w < Z.of_nat (S fuel) * seconds (CodeResponse.Interval codeResp) ->
    exists r w', Part001.poll_loop (S fuel) env ctx codeResp clientID clientSecret w
                 = Some (r, w').
Proof.
  intros Hd Htick. induction fuel as [|fuel IH]; intros w Hw.
  - destruct (poll_loop_ctx_done 0 env ctx codeResp clientID clientSecret w dn Hd)
      as [-> _]; [unfold next_tick; lia|].
    eexists _, _. reflexivity.
  - remember (S fuel) as n eqn:Hn. cbn [Part001.poll_loop].
    pose proof (select_now env ctx (seconds (CodeResponse.Interval codeResp)) w) as Hs.
    destruct (select env ctx _ w) as [[|] w1]; [|eexists _, _; reflexivity].
    pose proof (exchange_now env ctx codeResp clientID clientSecret w1) as He.
    destruct (Part001.RequestTokenContext env ctx codeResp clientID clientSecret w1)
      as [[resp err] w2]. simpl in He.
    destruct err as [e|]; [|eexists _, _; reflexivity].
    destruct (negb (errors_Is (Some e) ErrDeviceCodeUnclaimed));
      [eexists _, _; reflexivity|].
    subst n. apply IH. nia.
Qed.

(** From its entry the poll of [part_001] returns for every grant with a
    positive interval, whatever the caller's context and the server. *)
Lemma part_001_poll_returns_from_entry (env : Env) (ctx : Context)
    (codeResp : CodeResponse.t) (clientID clientSecret : string) (w : World) :
  0 < seconds (CodeResponse.Interval codeResp) ->
  exists fuel r w',
    Part001.PollForAuthTokenContext fuel env ctx codeResp clientID clientSecret w
      = Some (r, w').
Proof.
  intros Htick. unfold Part001.PollForAuthTokenContext.
  destruct (done_at_WithDeadline ctx (Part001.poll_deadline codeResp w)) as (d & Hd & _).
  exists (S (Z.to_nat (d - now w))).
  apply (part_001_poll_returns env _ codeResp clientID clientSecret d Hd Htick).
  destruct (Z.le_gt_cases 0 (d - now w)); nia.
Qed.

(* ================================================================= *)
(** ** The response transformer on every payload *)

Lemma wrap64_range (z : Z) : in_int64 (wrap64 z).
Proof.
  unfold in_int64, wrap64, minInt64, maxInt64.
  pose proof (Z.mod_pos_bound (z + 2 ^ 63) (2 ^ 64) ltac:(lia)). lia.
Qed.

Lemma wrap64_add_l (a b : Z) : wrap64 (wrap64 a + b) = wrap64 (a + b).
Proof.
  unfold wrap64. f_equal.
  replace ((a + 2 ^ 63) mod 2 ^ 64 - 2 ^ 63 + b + 2 ^ 63)
    with ((a + 2 ^ 63) mod 2 ^ 64 + b) by lia.
  rewrite Zplus_mod_idemp_l. f_equal. lia.
Qed.

(** Whatever the payload, the strings are copied, both times carry the
    local location, [CreatedAt] is on a second boundary and reads back
    as the payload's [CreatedAt] (also when the internal seconds wrap),
    and the nanoseconds of [ExpiresAt] stay within one second. *)
Theorem transform_total_facts (internal : internalTokenResponse.t) :
  in_int64 (internalTokenResponse.CreatedAt internal) ->
  let t := transformInternalTokenResponse internal in
  TokenResponse.AccessToken t = internalTokenResponse.AccessToken internal /\
  TokenResponse.TokenType t = internalTokenResponse.TokenType internal /\
  TokenResponse.RefreshToken t = internalTokenResponse.RefreshToken internal /\
  TokenResponse.Scope t = internalTokenResponse.Scope internal /\
  Time_Unix (TokenResponse.CreatedAt t) = internalTokenResponse.CreatedAt internal /\
  nsec (TokenResponse.CreatedAt t) = 0 /\
  loc (TokenResponse.CreatedAt t) = Local /\
  loc (TokenResponse.ExpiresAt t) = Local /\
  0 <= nsec (TokenResponse.ExpiresAt t) < 1000000000.
Proof.
  intros Hc t. subst t. unfold transformInternalTokenResponse.
  cbn [TokenResponse.AccessToken TokenResponse.TokenType TokenResponse.RefreshToken
       TokenResponse.Scope TokenResponse.CreatedAt TokenResponse.ExpiresAt].
  rewrite time_Unix_whole. cbn [nsec loc ext].
  repeat split.
  - unfold Time_Unix. cbn [ext]. rewrite wrap64_add_l.
    unfold internalToUnix. 
    replace (internalTokenResponse.CreatedAt internal + unixToInternal + - unixToInternal)
      with (internalTokenResponse.CreatedAt internal) by lia.
    apply wrap64_id. exact Hc.
  - unfold Time_Add, addSec. cbn [nsec loc ext]. each_case; reflexivity.
  - unfold Time_Add, addSec. cbn [nsec loc ext].
    pose proof (Z.rem_bound_abs (seconds (internalTokenResponse.ExpiresIn internal)) 1000000000 ltac:(lia)).
    destruct (Z.leb_spec 1000000000 (0 + Z.rem (seconds (internalTokenResponse.ExpiresIn internal)) 1000000000));
      [each_case; cbn [nsec]; lia|].
    destruct (Z.ltb_spec (0 + Z.rem (seconds (internalTokenResponse.ExpiresIn internal)) 1000000000) 0);
      each_case; cbn [nsec]; lia.
  - unfold Time_Add, addSec. cbn [nsec loc ext].
    pose proof (Z.rem_bound_abs (seconds (internalTokenResponse.ExpiresIn internal)) 1000000000 ltac:(lia)).
    destruct (Z.leb_spec 1000000000 (0 + Z.rem (seconds (internalTokenResponse.ExpiresIn internal)) 1000000000));
      [each_case; cbn [nsec]; lia|].
    destruct (Z.ltb_spec (0 + Z.rem (seconds (internalTokenResponse.ExpiresIn internal)) 1000000000) 0);
      each_case; cbn [nsec]; lia.
Qed.

Lemma transform_total_facts_example :
  let t := transformInternalTokenResponse
             (internalTokenResponse.mk "AT" "bearer" 9223372037 "RT" "public"
                9223372036854775807) in
  TokenResponse.AccessToken t = "AT"%string /\
  Time_Unix (TokenResponse.CreatedAt t) = 9223372036854775807.
Proof.
  pose proof (transform_total_facts
    (internalTokenResponse.mk "AT" "bearer" 9223372037 "RT" "public"
       9223372036854775807)) as H.
  cbn [internalTokenResponse.CreatedAt] in H.
  assert (H1 : in_int64 9223372036854775807)
    by (unfold in_int64, minInt64, maxInt64; lia).
  destruct (H H1) as (Ha & _ & _ & _ & Hc & _).
  split; [exact Ha | exact Hc].
Defined.

(** The two times of the record for a payload in range. *)
Lemma transform_in_range_values (internal : internalTokenResponse.t) :
  representable (internalTokenResponse.CreatedAt internal) ->
  fits_Duration (internalTokenResponse.ExpiresIn internal) ->
  representable (internalTokenResponse.CreatedAt internal
                 + internalTokenResponse.ExpiresIn internal) ->
  TokenResponse.CreatedAt (transformInternalTokenResponse internal)
    = mkTime (internalTokenResponse.CreatedAt internal + unixToInternal) 0 Local /\
  TokenResponse.ExpiresAt (transformInternalTokenResponse internal)
    = mkTime (internalTokenResponse.CreatedAt internal + unixToInternal
              + internalTokenResponse.ExpiresIn internal) 0 Local.
Proof.
  unfold representable, fits_Duration, maxDurationSeconds. intros Hc Hn Hs.
  assert (Hu : unixToInternal = 62135596800) by reflexivity.
  assert (Hmin : minInt64 = -9223372036854775808) by reflexivity.
  assert (Hmax : maxInt64 = 9223372036854775807) by reflexivity.
  unfold transformInternalTokenResponse.
  cbn [TokenResponse.CreatedAt TokenResponse.ExpiresAt].
  rewrite time_Unix_whole.
  rewrite wrap64_id by (unfold in_int64; lia).
  rewrite seconds_exact by (unfold fits_Duration, maxDurationSeconds; lia).
  rewrite Time_Add_whole by (unfold in_int64; lia).
  split; reflexivity.
Qed.

(** The record keeps the invariant "expires after it was created"
    exactly for the payloads with a positive [ExpiresIn]: for a payload
    in range, [CreatedAt.Before(ExpiresAt)] holds if and only if
    [ExpiresIn > 0]; with [ExpiresIn = 0] the two times are equal, with
    a negative one the record is expired before it was created. *)
Theorem transform_expires_after_created (internal : internalTokenResponse.t) :
  representable (internalTokenResponse.CreatedAt internal) ->
  fits_Duration (internalTokenResponse.ExpiresIn internal) ->
  representable (internalTokenResponse.CreatedAt internal
                 + internalTokenResponse.ExpiresIn internal) ->
  let t := transformInternalTokenResponse internal in
  Time_Before (TokenResponse.CreatedAt t) (TokenResponse.ExpiresAt t)
    = (0 <? internalTokenResponse.ExpiresIn internal) /\
  Time_Equal (TokenResponse.CreatedAt t) (TokenResponse.ExpiresAt t)
    = (internalTokenResponse.ExpiresIn internal =? 0) /\
  Time_Before (TokenResponse.ExpiresAt t) (TokenResponse.CreatedAt t)
    = (internalTokenResponse.ExpiresIn internal <? 0).
Proof.
  intros Hc Hn Hs t. subst t.
  destruct (transform_in_range_values internal Hc Hn Hs) as [-> ->].
  unfold Time_Before, Time_Equal. cbn [ext nsec].
  set (c := internalTokenResponse.CreatedAt internal + unixToInternal).
  set (n := internalTokenResponse.ExpiresIn internal).
  rewrite Z.ltb_irrefl, Z.eqb_refl, !andb_false_r, !orb_false_r, andb_true_r.
  repeat split.
  - destruct (Z.ltb_spec c (c + n)), (Z.ltb_spec 0 n); try reflexivity; lia.
  - destruct (Z.eqb_spec c (c + n)), (Z.eqb_spec n 0); try reflexivity; lia.
  - destruct (Z.ltb_spec (c + n) c), (Z.ltb_spec n 0); try reflexivity; lia.
Qed.

Lemma transform_expires_after_created_90_days :
  let t := transformInternalTokenResponse
             (internalTokenResponse.mk "AT" "bearer" 7776000 "RT" "public" 1700000000) in
  Time_Before (TokenResponse.CreatedAt t) (TokenResponse.ExpiresAt t) = true.
Proof.
  pose proof (transform_expires_after_created
    (internalTokenResponse.mk "AT" "bearer" 7776000 "RT" "public" 1700000000)) as H.
  cbn [internalTokenResponse.CreatedAt internalTokenResponse.ExpiresIn] in H.
  assert (H1 : representable 1700000000)
    by (unfold representable, minInt64, maxInt64, unixToInternal; lia).
  assert (H2 : fits_Duration 7776000)
    by (unfold fits_Duration, maxDurationSeconds; lia).
  assert (H3 : representable (1700000000 + 7776000))
    by (unfold representable, minInt64, maxInt64, unixToInternal; lia).
  destruct (H H1 H2 H3) as (Hb & _ & _). exact Hb.
Defined.

(** No two payloads in range give the same record: the payload can be
    read back from the record. *)
Theorem transform_injective_in_range (a b : internalTokenResponse.t) :
  representable (internalTokenResponse.CreatedAt a) ->
  fits_Duration (internalTokenResponse.ExpiresIn a) ->
  representable (internalTokenResponse.CreatedAt a + internalTokenResponse.ExpiresIn a) ->
  representable (internalTokenResponse.CreatedAt b) ->
  fits_Duration (internalTokenResponse.ExpiresIn b) ->
  representable (internalTokenResponse.CreatedAt b + internalTokenResponse.ExpiresIn b) ->
  transformInternalTokenResponse a = transformInternalTokenResponse b ->
  a = b.
Proof.
  intros Ha1 Ha2 Ha3 Hb1 Hb2 Hb3 E.
  destruct (transform_in_range_values a Ha1 Ha2 Ha3) as [Hca Hea].
  destruct (transform_in_range_values b Hb1 Hb2 Hb3) as [Hcb Heb].
  rewrite E in Hca, Hea. rewrite Hca in Hcb. rewrite Hea in Heb.
  injection Hcb as Hc. injection Heb as He.
  pose proof (f_equal TokenResponse.AccessToken E) as E1.
  pose proof (f_equal TokenResponse.TokenType E) as E2.
  pose proof (f_equal TokenResponse.RefreshToken E) as E3.
  pose proof (f_equal TokenResponse.Scope E) as E4.
  destruct a, b. cbn in *. f_equal; try assumption; lia.
Qed.

Lemma transform_injective_in_range_example :
  internalTokenResponse.mk "AT" "bearer" 7776000 "RT" "public" 1700000000
    = internalTokenResponse.mk "AT" "bearer" 7776000 "RT" "public" 1700000000.
Proof.
  apply (transform_injective_in_range
           (internalTokenResponse.mk "AT" "bearer" 7776000 "RT" "public" 1700000000)
           (internalTokenResponse.mk "AT" "bearer" 7776000 "RT" "public" 1700000000)).
  - unfold representable, minInt64, maxInt64, unixToInternal; simpl; lia.
  - unfold fits_Duration, maxDurationSeconds; simpl; lia.
  - unfold representable, minInt64, maxInt64, unixToInternal; simpl; lia.
  - unfold representable, minInt64, maxInt64, unixToInternal; simpl; lia.
  - unfold fits_Duration, maxDurationSeconds; simpl; lia.
  - unfold representable, minInt64, maxInt64, unixToInternal; simpl; lia.
  - reflexivity.
Defined.

(* ================================================================= *)
(** ** The request of an operation *)




(* ================================================================= *)
(** ** Request bodies of plain operands *)
















(* ================================================================= *)
(** ** What an operation returns *)

(** A response whose status is not 200 never gives a value, and what it
    gives depends on the status code alone: not on the body, not on the
    operands, not on the base URL. Two calls of an operation of
    [part_001] answered with the same status other than 200 return the
    same pair, made of the zero value and a non-nil error. *)
Theorem status_alone_decides (env env' : Env) (ctx ctx' : Context) (w w' : World)
    (resp resp' : Response) :
  responds env ctx w resp ->
  responds env' ctx' w' resp' ->
  StatusCode resp = StatusCode resp' ->
  StatusCode resp <> 200 ->
  (forall clientID clientID',
     let r := fst (Part001.GenerateNewCodeContext env ctx clientID w) in
     r = fst (Part001.GenerateNewCodeContext env' ctx' clientID' w') /\
     fst r = CodeResponse.zero /\ snd r <> None) /\
  (forall codeResp clientID clientSecret codeResp' clientID' clientSecret',
     let r := fst (Part001.RequestTokenContext env ctx codeResp clientID clientSecret w) in
     r = fst (Part001.RequestTokenContext env' ctx' codeResp' clientID' clientSecret' w') /\
     fst r = TokenResponse.zero /\ snd r <> None) /\
  (forall refreshToken clientID clientSecret refreshToken' clientID' clientSecret',
     let r := fst (Part001.RefreshAccessTokenContext env ctx refreshToken clientID
                     clientSecret w) in
     r = fst (Part001.RefreshAccessTokenContext env' ctx' refreshToken' clientID'
                clientSecret' w') /\
     fst r = TokenResponse.zero /\ snd r <> None).
Proof.
  intros Hr Hr' Hcode H200.
  pose proof Hr as (Hurl & _ & _). pose proof Hr' as (Hurl' & _ & _).
  apply Z.eqb_neq in H200.
  split; [|split]; intros; subst r.
  all: unfold Part001.GenerateNewCodeContext, Part001.RequestTokenContext,
         Part001.RefreshAccessTokenContext.
  all: rewrite !NewRequest_parses by assumption.
  all: rewrite (Do_responds _ _ _ _ _ Hr), (Do_responds _ _ _ _ _ Hr').
  all: unfold deferred; rewrite <- Hcode, H200.
  all: each_case; (split; [reflexivity | split; [reflexivity | discriminate]]).
Qed.

Lemma status_alone_decides_404 :
  fst (Part001.RequestTokenContext (Scenario.scripted [Scenario.status 404 ""])
         Background Scenario.grant "id" "secret" world0)
    = fst (Part001.RequestTokenContext
             (Scenario.scripted [Scenario.status 404 Scenario.token_document])
             Background (CodeResponse.mk "xyz" "" "" 1 1) "other" "key" world0).
Proof.
  assert (H : responds (Scenario.scripted [Scenario.status 404 ""]) Background world0
                (mkResponse 404 (Bytes ""))).
  { unfold responds. split; [reflexivity | split; [reflexivity | exact (fun _ => I)]]. }
  assert (H' : responds (Scenario.scripted [Scenario.status 404 Scenario.token_document])
                 Background world0 (mkResponse 404 (Bytes Scenario.token_document))).
  { unfold responds. split; [reflexivity | split; [reflexivity | exact (fun _ => I)]]. }
  destruct (status_alone_decides _ _ _ _ _ _ _ _ H H' eq_refl) as (_ & H2 & _).
  { cbn. discriminate. }
  exact (proj1 (H2 Scenario.grant "id"%string "secret"%string
                  (CodeResponse.mk "xyz" "" "" 1 1) "other"%string "key"%string)).
Defined.

(** A response with status 200 gives a token only if its body is read
    and decodes. The exchange and the refresh of [part_001] then return
    the same token, the transform of the decoded document, with a nil
    error; a body that does not decode, or is not read to its end, gives
    the zero token and an error that wraps the decoder's or the reader's
    error behind the prefix of the operation; it is never classified. *)
Theorem ok_status_decodes_body (env : Env) (ctx : Context) (w : World) (resp : Response)
    (codeResp : CodeResponse.t) (refreshToken clientID clientSecret : string) :
  responds env ctx w resp ->
  StatusCode resp = 200 ->
  let exchanged := fst (Part001.RequestTokenContext env ctx codeResp clientID clientSecret w) in
  let refreshed := fst (Part001.RefreshAccessTokenContext env ctx refreshToken clientID
                          clientSecret w) in
  match Body resp with
  | Bytes b =>
      match Unmarshal.internalTokenResponse_ b internalTokenResponse.zero with
      | (respStruct, None) =>
          exchanged = (transformInternalTokenResponse respStruct, None) /\
          refreshed = (transformInternalTokenResponse respStruct, None)
      | (_, Some e) =>
          exchanged = (TokenResponse.zero, Some (EWrap ("RequestToken: " ++ Error e) e)) /\
          refreshed = (TokenResponse.zero, Some (EWrap ("RefreshToken: " ++ Error e) e)) /\
          unclassified e
      end
  | ReadError msg =>
      exchanged = (TokenResponse.zero,
                   Some (EWrap ("RequestToken: " ++ msg) (EForeign msg))) /\
      refreshed = (TokenResponse.zero,
                   Some (EWrap ("RefreshToken: " ++ msg) (EForeign msg)))
  end.
Proof.
  intros Hr H200 exchanged refreshed. subst exchanged refreshed.
  pose proof Hr as (Hurl & _ & _).
  unfold Part001.RequestTokenContext, Part001.RefreshAccessTokenContext.
  rewrite !NewRequest_parses by assumption.
  rewrite !(Do_responds _ _ _ _ _ Hr).
  unfold deferred, ReadAll. rewrite H200. cbn [Z.eqb Pos.eqb].
  destruct (Body resp) as [b|msg]; [|split; reflexivity].
  destruct (Unmarshal.internalTokenResponse_ b internalTokenResponse.zero) as [x [e|]] eqn:HU.
  - split; [reflexivity | split; [reflexivity|]].
    unfold Unmarshal.internalTokenResponse_, Unmarshal.into_struct in HU.
    repeat match type of HU with
    | context [match ?x with _ => _ end] => destruct x
    end; try discriminate HU; inversion HU; subst; intro sn; reflexivity.
  - split; reflexivity.
Qed.

Lemma ok_status_decodes_body_example :
  fst (Part001.RequestTokenContext
         (Scenario.scripted [Scenario.status 200 Scenario.token_document])
         Background Scenario.grant "id" "secret" world0)
    = (Scenario.the_token, None) /\
  fst (Part001.RefreshAccessTokenContext
         (Scenario.scripted [Scenario.status 200 Scenario.token_document])
         Background "RT" "id" "secret" world0)
    = (Scenario.the_token, None).
Proof.
  assert (H : responds (Scenario.scripted [Scenario.status 200 Scenario.token_document])
                Background world0 (mkResponse 200 (Bytes Scenario.token_document))).
  { unfold responds. split; [reflexivity | split; [reflexivity | exact (fun _ => I)]]. }
  exact (ok_status_decodes_body _ _ _ _ Scenario.grant "RT"%string "id"%string
           "secret"%string H eq_refl).
Defined.

(* ================================================================= *)
(** ** A context that is done *)

Lemma Do_expired (env : Env) (ctx : Context) (req : Request) (w : World) (d : Z) :
  done_at ctx = Some d -> d <= now w ->
  Do env ctx req w = (inl (url_Error req (EContext (Err ctx))), w).
Proof.
  intros Hd Hle. unfold Do. rewrite Hd.
  destruct (Z.leb_spec d (now w)); [reflexivity | lia].
Qed.

Lemma Is_context_Err (ctx : Context) (m1 m2 : string) :
  Is_context_chain (EWrap m1 (EWrap m2 (EContext (Err ctx)))) (Err ctx) = true.
Proof. cbn. destruct (Err ctx); reflexivity. Qed.

(** Called with a context that is already done, an operation of either
    file leaves the world as it found it (nothing is sent, no body is
    opened, the clock does not move) and returns the zero value with an
    error that [errors.Is] matches with the error of the context,
    [context.Canceled] or [context.DeadlineExceeded], and with none of
    the classifications of the package. *)
Theorem done_context_sends_nothing (env : Env) (ctx : Context) (w : World) (d : Z) :
  (forall u, url_error env u = None) ->
  done_at ctx = Some d ->
  d <= now w ->
  (forall clientID,
     stopped_by_context CodeResponse.zero ctx w
       (Part001.GenerateNewCodeContext env ctx clientID w) /\
     stopped_by_context CodeResponse.zero ctx w
       (TraktDeviceAuthGo.GenerateNewCodeContext env ctx clientID w)) /\
  (forall codeResp clientID clientSecret,
     stopped_by_context TokenResponse.zero ctx w
       (Part001.RequestTokenContext env ctx codeResp clientID clientSecret w) /\
     stopped_by_context TokenResponse.zero ctx w
       (TraktDeviceAuthGo.RequestTokenContext env ctx codeResp clientID clientSecret w)) /\
  (forall refreshToken clientID clientSecret,
     stopped_by_context TokenResponse.zero ctx w
       (Part001.RefreshAccessTokenContext env ctx refreshToken clientID clientSecret w)).
Proof.
  intros Hurl Hd Hle.
  split; [intros; split | split; [intros; split | intros]].
  all: unfold Part001.GenerateNewCodeContext, TraktDeviceAuthGo.GenerateNewCodeContext,
         Part001.RequestTokenContext, TraktDeviceAuthGo.RequestTokenContext,
         Part001.RefreshAccessTokenContext.
  all: rewrite NewRequest_parses by assumption.
  all: rewrite (Do_expired _ _ _ _ _ Hd Hle).
  all: eexists; split; [reflexivity|].
  all: split; [apply Is_context_Err | intro s; reflexivity].
Qed.

Lemma done_context_sends_nothing_canceled :
  stopped_by_context TokenResponse.zero (mkContext None (Some 0)) world0
    (Part001.RequestTokenContext (Scenario.scripted []) (mkContext None (Some 0))
       Scenario.grant "id" "secret" world0).
Proof.
  refine (proj1 (proj1 (proj2 (done_context_sends_nothing (Scenario.scripted [])
            (mkContext None (Some 0)) world0 0 _ _ _)) Scenario.grant "id"%string
            "secret"%string)).
  - reflexivity.
  - reflexivity.
  - cbn. lia.
Defined.

(* ================================================================= *)
(** ** The poll loop: in-flight cancellation, spacing, bounds *)

Lemma select_timer (env : Env) (ctx : Context) (dur : Duration) (w : World) :
  match done_at ctx with
  | Some d => now w + Z.max 0 dur < d
  | None => True
  end ->
  select env ctx dur w = (TimerFired, selected_at w (now w + Z.max 0 dur)).
Proof.
  intros H. unfold select. destruct (done_at ctx) as [d|]; [|reflexivity].
  destruct (Z.ltb_spec (Z.max d (now w)) (now w + Z.max 0 dur)); [lia|].
  destruct (Z.ltb_spec (now w + Z.max 0 dur) (Z.max d (now w))); [reflexivity | lia].
Qed.

Lemma Do_cut (env : Env) (ctx : Context) (req : Request) (w : World) (d : Z) :
  done_at ctx = Some d ->
  now w < d ->
  d < now w + Z.max 0 (latency (server env (length (sent w)) req)) ->
  Do env ctx req w
    = (inl (url_Error req (EContext (Err ctx))),
       mkWorld d (sent w ++ [(now w, req)]) (live_bodies w) (selects w)).
Proof.
  intros Hd H1 H2. unfold Do. rewrite Hd.
  destruct (Z.leb_spec d (now w)); [lia|].
  destruct (Z.ltb_spec d (now w + Z.max 0 (latency (server env (length (sent w)) req))));
    [reflexivity | lia].
Qed.

(** When the context becomes done while an exchange is in flight (the
    tick comes before the context is done, the reply after), the poll of
    [part_001] stops at that instant with the zero token and an error
    that wraps the error of the context: [errors.Is] tells
    [context.Canceled] from [context.DeadlineExceeded] on it, and it is
    not the "exceeded context" error of a wait. *)
Theorem in_flight_context_error_is_wrapped (fuel : nat) (env : Env) (ctx : Context)
    (codeResp : CodeResponse.t) (clientID clientSecret : string) (w : World) (d : Z) :
  (forall u, url_error env u = None) ->
  done_at ctx = Some d ->
  next_tick codeResp w < d ->
  (forall req, d < next_tick codeResp w
                   + Z.max 0 (latency (server env (length (sent w)) req))) ->
  exists e w',
    Part001.poll_loop (S fuel) env ctx codeResp clientID clientSecret w
      = Some ((TokenResponse.zero, Some e), w') /\
    now w' = d /\
    length (sent w') = S (length (sent w)) /\
    live_bodies w' = live_bodies w /\
    errors_Is_context (Some e) (Err ctx) = true /\
    unclassified e /\
    e <> exceeded_context.
Proof.
  intros Hurl Hd Htick Hlate. unfold next_tick in *.
  cbn [Part001.poll_loop].
  rewrite select_timer by (rewrite Hd; exact Htick).
  unfold Part001.RequestTokenContext.
  rewrite NewRequest_parses by assumption.
  rewrite (Do_cut _ _ _ _ d Hd) by (cbn [now sent selected_at]; first [exact Htick | apply Hlate]).
  cbn [fails errors_Is Is_chain negb].
  eexists _, _. split; [reflexivity|].
  cbn [now sent live_bodies selected_at].
  split; [reflexivity|]. split; [rewrite length_app; cbn; lia|].
  split; [reflexivity|].
  split; [cbn; destruct (Err ctx); reflexivity|].
  split; [intro s; reflexivity | discriminate].
Qed.

Lemma in_flight_context_error_is_wrapped_example :
  exists e w',
    Part001.poll_loop 1 (Scenario.scripted []) (mkContext (Some 600000000000) (Some 5050000000))
      Scenario.grant "id" "secret" world0
      = Some ((TokenResponse.zero, Some e), w') /\
    now w' = 5050000000 /\
    length (sent w') = S (length (sent world0)) /\
    live_bodies w' = live_bodies world0 /\
    errors_Is_context (Some e) (Err (mkContext (Some 600000000000) (Some 5050000000))) = true /\
    unclassified e /\
    e <> exceeded_context.
Proof.
  apply (in_flight_context_error_is_wrapped 0 (Scenario.scripted [])
           (mkContext (Some 600000000000) (Some 5050000000)) Scenario.grant
           "id" "secret" world0 5050000000).
  - reflexivity.
  - reflexivity.
  - vm_compute. reflexivity.
  - intros req. vm_compute. reflexivity.
Defined.

Lemma Do_sent_one (env : Env) (ctx : Context) (req : Request) (w : World) :
  sent (snd (Do env ctx req w)) = sent w \/
  sent (snd (Do env ctx req w)) = sent w ++ [(now w, req)].
Proof.
  unfold Do. destruct (done_at ctx) as [d|].
  - destruct (d <=? now w); [left; reflexivity|]. right.
    each_case; try reflexivity. destruct (outcome _); reflexivity.
  - right. destruct (outcome _); reflexivity.
Qed.

(** An exchange of either file submits nothing or one request, at the
    instant it is called. *)
Lemma exchange_sent_one (env : Env) (ctx : Context) (codeResp : CodeResponse.t)
    (clientID clientSecret : string) (w : World) :
  (exists new,
     sent (snd (Part001.RequestTokenContext env ctx codeResp clientID clientSecret w))
       = sent w ++ new /\
     (new = [] \/ exists req, new = [(now w, req)])) /\
  (exists new,
     sent (snd (TraktDeviceAuthGo.RequestTokenContext env ctx codeResp clientID
                  clientSecret w))
       = sent w ++ new /\
     (new = [] \/ exists req, new = [(now w, req)])).
Proof.
  split.
  all: unfold Part001.RequestTokenContext, TraktDeviceAuthGo.RequestTokenContext.
  all: destruct (NewRequestWithContext env "POST" _ _) as [e|req];
         [exists []; split; [symmetry; apply app_nil_r | left; reflexivity]|].
  all: match goal with
       | |- context [Do ?e ?c ?r ?w] =>
           pose proof (Do_sent_one e c r w) as HD;
           destruct (Do e c r w) as [[err|resp] w1]; cbn [snd] in HD
       end.
  all: match goal with
       | |- exists new, sent (snd ?x) = _ /\ _ =>
           assert (Hs : sent (snd x) = sent w1)
             by (cbn [snd]; try reflexivity;
                 try (apply deferred_Close_sent; intros w2);
                 each_case; try reflexivity;
                 destruct (ReadAll resp) as [b [e|]]; try reflexivity;
                 destruct (Unmarshal.internalTokenResponse_ b _) as [x' [e|]];
                 reflexivity)
       end.
  all: rewrite Hs; destruct HD as [HD|HD]; rewrite HD;
       [exists []; split; [symmetry; apply app_nil_r | left; reflexivity]
       | eexists; split; [reflexivity | right; eexists; reflexivity]].
Qed.

Lemma spaced_from (gap from from' : Z) (l : list (Z * Request)) :
  from' <= from -> spaced gap from l -> spaced gap from' l.
Proof. destruct l as [|tr l]; cbn [spaced]; [trivial|]. intros H [H1 H2]. split; [lia | exact H2]. Qed.

Lemma spaced_count (gap from D : Z) (l : list (Z * Request)) :
  0 <= gap -> spaced gap from l -> Forall (fun tr => fst tr < D) l -> l <> [] ->
  from + Z.of_nat (length l) * gap < D.
Proof.
  intros Hg. revert from. induction l as [|tr l IH]; intros from Hs Hf Hne; [now elim Hne|].
  cbn [spaced] in Hs. destruct Hs as [H1 H2]. inversion Hf as [|? ? Ht Hf']; subst.
  destruct l as [|tr' l].
  - cbn [length]. lia.
  - specialize (IH (fst tr) H2 Hf' ltac:(discriminate)).
    cbn [length] in *. lia.
Qed.

(** The loop of [part_001] waits a whole tick before each exchange: its
    first request comes at least one tick after the loop starts, and two
    successive requests are at least one tick apart. *)
Lemma poll_loop_spaced (env : Env) (ctx : Context) (codeResp : CodeResponse.t)
    (clientID clientSecret : string) (fuel : nat) :
  forall (w w' : World) r,
    Part001.poll_loop fuel env ctx codeResp clientID clientSecret w = Some (r, w') ->
    exists new,
      sent w' = sent w ++ new /\
      spaced (Z.max 0 (seconds (CodeResponse.Interval codeResp))) (now w) new.
Proof.
  induction fuel as [|fuel IH]; intros w w' r H; [discriminate H|].
  cbn [Part001.poll_loop] in H.
  pose proof (select_sent env ctx (seconds (CodeResponse.Interval codeResp)) w) as Hsel.
  pose proof (select_now env ctx (seconds (CodeResponse.Interval codeResp)) w) as Hnow.
  destruct (select env ctx _ w) as [[|] w1]; cbn [snd] in Hsel.
  - destruct (exchange_sent_one env ctx codeResp clientID clientSecret w1)
      as [(new & Hs & Hnew) _].
    pose proof (exchange_now env ctx codeResp clientID clientSecret w1) as Hmono.
    destruct (Part001.RequestTokenContext env ctx codeResp clientID clientSecret w1)
      as [[resp err] w2]. cbn [snd] in Hs, Hmono. rewrite Hsel in Hs.
    assert (Hfirst : spaced (Z.max 0 (seconds (CodeResponse.Interval codeResp))) (now w) new).
    { destruct Hnew as [-> | [req ->]]; cbn [spaced fst]; [trivial | split; [lia | trivial]]. }
    destruct err as [e|].
    + destruct (negb (errors_Is (Some e) ErrDeviceCodeUnclaimed)).
      * injection H as _ <-. exists new. split; assumption.
      * destruct (IH _ _ _ H) as (new' & Hs' & Hsp').
        exists (new ++ new'). split; [rewrite Hs', Hs; symmetry; apply app_assoc|].
        destruct Hnew as [-> | [req ->]].
        -- cbn [app]. apply (spaced_from _ (now w2)); [lia | exact Hsp'].
        -- cbn [app spaced fst]. split; [lia|].
           apply (spaced_from _ (now w2)); [exact Hmono | exact Hsp'].
    + injection H as _ <-. exists new. split; assumption.
  - injection H as _ <-. exists []. split; [rewrite Hsel; symmetry; apply app_nil_r | exact I].
Qed.

(** The poll of [part_001] respects the interval and the lifetime of the
    grant. For a grant with a positive [Interval] (both numbers of
    seconds held by a [time.Duration]), the requests of one poll are at
    least [Interval] seconds apart, the first one at least [Interval]
    seconds after the start; all are submitted before the start plus
    [ExpiresIn] seconds; so a poll that sends [n > 0] requests has
    [n * Interval < ExpiresIn]. *)
Theorem part_001_poll_respects_interval (fuel : nat) (env : Env) (ctx : Context)
    (codeResp : CodeResponse.t) (clientID clientSecret : string) (w w' : World)
    (r : TokenResponse.t * error) :
  fits_Duration (CodeResponse.ExpiresIn codeResp) ->
  fits_Duration (CodeResponse.Interval codeResp) ->
  0 < CodeResponse.Interval codeResp ->
  Part001.PollForAuthTokenContext fuel env ctx codeResp clientID clientSecret w
    = Some (r, w') ->
  exists new,
    sent w' = sent w ++ new /\
    spaced (1000000000 * CodeResponse.Interval codeResp) (now w) new /\
    Forall (fun tr => fst tr < now w + 1000000000 * CodeResponse.ExpiresIn codeResp) new /\
    (new <> [] ->
     Z.of_nat (length new) * CodeResponse.Interval codeResp
       < CodeResponse.ExpiresIn codeResp).
Proof.
  intros HE HI Hpos H. unfold Part001.PollForAuthTokenContext, Part001.poll_deadline in H.
  rewrite (seconds_exact _ HE) in H.
  destruct (poll_loop_spaced _ _ _ _ _ _ _ _ _ H) as (new & Hs & Hsp).
  destruct (poll_loop_sent _ _ _ _ _ _ _ _ _ H) as (new' & Hs' & Hf).
  assert (new' = new) by (rewrite Hs in Hs'; exact (eq_sym (app_inv_head _ _ _ Hs'))).
  subst new'.
  rewrite (seconds_exact _ HI) in Hsp.
  replace (Z.max 0 (1000000000 * CodeResponse.Interval codeResp))
    with (1000000000 * CodeResponse.Interval codeResp) in Hsp by lia.
  destruct (done_at_WithDeadline ctx
              (now w + 1000000000 * CodeResponse.ExpiresIn codeResp)) as (d & Hd & HdD & _).
  assert (Hbefore : Forall (fun tr => fst tr
            < now w + 1000000000 * CodeResponse.ExpiresIn codeResp) new).
  { eapply Forall_impl; [|exact Hf]. cbv beta. intros tr Htr. specialize (Htr d Hd). lia. }
  exists new. split; [exact Hs|]. split; [exact Hsp|]. split; [exact Hbefore|].
  intros Hne.
  assert (Hgap : 0 <= 1000000000 * CodeResponse.Interval codeResp) by lia.
  pose proof (spaced_count _ _ _ _ Hgap Hsp Hbefore Hne) as Hc.
  replace (Z.of_nat (length new) * (1000000000 * CodeResponse.Interval codeResp))
    with (1000000000 * (Z.of_nat (length new) * CodeResponse.Interval codeResp))
    in Hc by ring.
  lia.
Qed.

Lemma part_001_poll_respects_interval_example :
  exists new,
    sent (mkWorld 15300000000
            (map (fun t => (t, api_request "https://api.trakt.tv/oauth/device/token"
                              ("{" ++ quoted "code" ++ ": " ++ quoted "abc"
                               ++ ", " ++ quoted "client_id" ++ ": " ++ quoted "id"
                               ++ ", " ++ quoted "client_secret" ++ ": " ++ quoted "secret"
                               ++ "}")%string))
                 [5000000000; 10100000000; 15200000000]) 0 3)
      = sent world0 ++ new /\
    spaced (1000000000 * 5) (now world0) new /\
    Forall (fun tr => fst tr < now world0 + 1000000000 * 600) new /\
    (new <> [] -> Z.of_nat (length new) * 5 < 600).
Proof.
  apply (part_001_poll_respects_interval 3
           (Scenario.scripted [Scenario.status 400 ""; Scenario.status 400 "";
                               Scenario.status 200 Scenario.token_document])
           Background Scenario.grant "id" "secret" world0 _ (Scenario.the_token, None)).
  - unfold fits_Duration, maxDurationSeconds; simpl; lia.
  - unfold fits_Duration, maxDurationSeconds; simpl; lia.
  - simpl; lia.
  - vm_compute. reflexivity.
Defined.

(** An exchange of [traktdeviceauth.go] that fails returns the zero token. *)
Lemma TraktDeviceAuthGo_exchange_error_zero (env : Env) (ctx : Context)
    (codeResp : CodeResponse.t) (clientID clientSecret : string) (w : World) :
  snd (fst (TraktDeviceAuthGo.RequestTokenContext env ctx codeResp clientID clientSecret w))
    <> None ->
  fst (fst (TraktDeviceAuthGo.RequestTokenContext env ctx codeResp clientID clientSecret w))
    = TokenResponse.zero.
Proof.
  unfold TraktDeviceAuthGo.RequestTokenContext.
  destruct (NewRequestWithContext env "POST" _ _) as [e|req]; [reflexivity|].
  match goal with
  | |- context [Do ?e ?c ?r ?w] => destruct (Do e c r w) as [[err|resp] w1]
  end; [reflexivity|].
  each_case; try reflexivity.
  destruct (ReadAll resp) as [b [e|]]; try reflexivity.
  destruct (Unmarshal.internalTokenResponse_ b _) as [x [e|]]; try reflexivity.
  intros H. now elim H.
Qed.

(** The poll of [traktdeviceauth.go] never returns a token. Whatever the
    server answers and whatever the grant, its loop returns in the first
    iteration, after one request at most, and what it returns is the
    zero token with one of three errors: the "exceeded context" error,
    nil, or the error made of a nil operand. *)
Theorem TraktDeviceAuthGo_poll_never_returns_a_token (fuel : nat) (env : Env)
    (ctx : Context) (codeResp : CodeResponse.t) (clientID clientSecret : string)
    (w : World) :
  exists err w' new,
    TraktDeviceAuthGo.poll_loop (S fuel) env ctx codeResp clientID clientSecret w
      = Some ((TokenResponse.zero, err), w') /\
    (err = Some exceeded_context \/ err = None \/
     err = Some (EString "PollForAuthToken: %!w(<nil>)")) /\
    sent w' = sent w ++ new /\
    (length new <= 1)%nat.
Proof.
  cbn [TraktDeviceAuthGo.poll_loop].
  pose proof (select_sent env ctx (seconds (CodeResponse.Interval codeResp)) w) as Hsel.
  destruct (select env ctx _ w) as [[|] w1]; cbn [snd] in Hsel.
  - destruct (exchange_sent_one env ctx codeResp clientID clientSecret w1)
      as [_ (new & Hs & Hnew)].
    pose proof (TraktDeviceAuthGo_exchange_error_zero env ctx codeResp clientID
                  clientSecret w1) as Hz.
    destruct (TraktDeviceAuthGo.RequestTokenContext env ctx codeResp clientID
                clientSecret w1) as [[resp err] w2].
    cbn [fst snd] in *. rewrite Hsel in Hs.
    assert (Hlen : (length new <= 1)%nat)
      by (destruct Hnew as [-> | [req ->]]; cbn; lia).
    destruct err as [e|].
    + rewrite Hz by discriminate. exists None, w2, new.
      split; [reflexivity|]. split; [right; left; reflexivity|]. split; assumption.
    + cbn. exists (Some (EString "PollForAuthToken: %!w(<nil>)")), w2, new.
      split; [reflexivity|]. split; [right; right; reflexivity|]. split; assumption.
  - exists (Some exceeded_context), w1, []. split; [reflexivity|].
    split; [left; reflexivity|]. split; [rewrite Hsel; symmetry; apply app_nil_r | cbn; lia].
Qed.

(** The poll of [part_001] never reports "not yet claimed". An error it
    returns comes with the zero token and is not matched by [errors.Is]
    with [ErrDeviceCodeUnclaimed]; a classification it is matched with
    is the one of the error the last exchange returned. *)
Theorem part_001_poll_never_reports_unclaimed (fuel : nat) (env : Env) (ctx : Context)
    (codeResp : CodeResponse.t) (clientID clientSecret : string) (w w' : World)
    (token : TokenResponse.t) (e : GoError) :
  Part001.poll_loop fuel env ctx codeResp clientID clientSecret w
    = Some ((token, Some e), w') ->
  token = TokenResponse.zero /\
  errors_Is (Some e) ErrDeviceCodeUnclaimed = false /\
  (forall s, errors_Is (Some e) s = true ->
     exists w1 token1 e1,
       Part001.RequestTokenContext env ctx codeResp clientID clientSecret w1
         = ((token1, Some e1), w') /\
       errors_Is (Some e1) s = true).
Proof.
  intros H.
  destruct (part_001_poll_outcomes _ _ _ _ _ _ _ _ _ H)
    as [(w1 & tok & _ & Hr) | [(w1 & tok & e1 & HR & HI & Hr) | Hr]].
  - discriminate Hr.
  - injection Hr as -> ->. split; [reflexivity|]. split; [exact HI|].
    intros s Hs. exists w1, tok, e1. split; [exact HR | exact Hs].
  - injection Hr as -> ->. split; [reflexivity|]. split; [reflexivity|].
    intros s Hs. discriminate Hs.
Qed.

Lemma part_001_poll_never_reports_unclaimed_example :
  TokenResponse.zero = TokenResponse.zero /\
  errors_Is (Some (EWrap "PollForAuthToken: the device code was denied by the user"
                     (ESentinel ErrDeviceCodeDenied))) ErrDeviceCodeUnclaimed = false /\
  (forall s,
     errors_Is (Some (EWrap "PollForAuthToken: the device code was denied by the user"
                        (ESentinel ErrDeviceCodeDenied))) s = true ->
     exists w1 token1 e1,
       Part001.RequestTokenContext (Scenario.scripted [Scenario.status 418 ""])
         (WithDeadline Background 600000000000) Scenario.grant "id" "secret" w1
         = ((token1, Some e1),
            mkWorld 5100000000
              [(5000000000, api_request "https://api.trakt.tv/oauth/device/token"
                  ("{" ++ quoted "code" ++ ": " ++ quoted "abc"
                   ++ ", " ++ quoted "client_id" ++ ": " ++ quoted "id"
                   ++ ", " ++ quoted "client_secret" ++ ": " ++ quoted "secret"
                   ++ "}")%string)] 0 1) /\
       errors_Is (Some e1) s = true).
Proof.
  apply (part_001_poll_never_reports_unclaimed 1
           (Scenario.scripted [Scenario.status 418 ""])
           (WithDeadline Background 600000000000) Scenario.grant "id" "secret" world0).
  vm_compute. reflexivity.
Defined.

(** The poll of [part_001] always returns. For every grant whose
    [Interval] is positive (and a number of seconds a [time.Duration]
    holds), every server, every caller's context and every starting
    instant, the loop ends after finitely many iterations with a
    result. *)
Theorem part_001_poll_always_returns (env : Env) (ctx : Context)
    (codeResp : CodeResponse.t) (clientID clientSecret : string) (w : World) :
  fits_Duration (CodeResponse.Interval codeResp) ->
  0 < CodeResponse.Interval codeResp ->
  exists fuel r w',
    Part001.PollForAuthTokenContext fuel env ctx codeResp clientID clientSecret w
      = Some (r, w').
Proof.
  intros HI Hpos. apply part_001_poll_returns_from_entry.
  rewrite (seconds_exact _ HI). lia.
Qed.

Lemma part_001_poll_always_returns_600_5 :
  exists fuel r w',
    Part001.PollForAuthTokenContext fuel (Scenario.scripted []) Background Scenario.grant
      "id" "secret" world0 = Some (r, w').
Proof.
  apply part_001_poll_always_returns.
  - unfold fits_Duration, maxDurationSeconds; simpl; lia.
  - simpl; lia.
Defined.



(* ================================================================= *)
(** ** Documents without the keys of a grant *)






(* ================================================================= *)
(** ** The command *)

(** Linked with [part_001], [main] prints a token report only for a
    token that an exchange returned with a nil error. If it returns,
    then: the two strings were read after their prompts; the device-code
    request made with the first one returned a grant with a nil error;
    an exchange made with that grant and the two strings, under the
    context of the poll, returned the reported token with a nil error,
    in the world [main] ends in; that token is not the zero token; and
    the output is the two prompts, the invitation with the verification
    URL and the user code of the grant, and the report. *)
Theorem main_part_001_reports_exchanged_token {Stdin : Type}
    (Scan : Stdin -> string * Stdin) (Time_String : Time -> string)
    (fuel : nat) (env : Env) (c c' : Console Stdin) (w w' : World) :
  main_part_001 Scan Time_String fuel env c w = Some ((Returned, c'), w') ->
  exists clientID c1 clientSecret c2 cR w1 tR wa,
    input Scan "Please enter your app's client id: " c = (clientID, c1) /\
    input Scan "Please enter your app's client secret: " c1 = (clientSecret, c2) /\
    stdout c2 = ((stdout c ++ "Please enter your app's client id: ")
                 ++ "Please enter your app's client secret: ")%string /\
    Part001.GenerateNewCode env clientID w = ((cR, None), w1) /\
    Part001.RequestTokenContext env (WithDeadline Background (Part001.poll_deadline cR w1))
      cR clientID clientSecret wa = ((tR, None), w') /\
    tR <> TokenResponse.zero /\
    stdout c' = ((stdout c2
                  ++ ("Please visit " ++ CodeResponse.VerificationURL cR
                      ++ " and enter the following code: " ++ CodeResponse.UserCode cR
                      ++ newline))
                 ++ token_report Time_String tR)%string.
Proof.
  unfold main_part_001, main. intros H.
  destruct (input Scan "Please enter your app's client id: " c) as [clientID c1] eqn:H1.
  destruct (input Scan "Please enter your app's client secret: " c1)
    as [clientSecret c2] eqn:H2.
  destruct (Part001.GenerateNewCode env clientID w) as [[cR [e|]] w1] eqn:HG;
    [discriminate H|].
  destruct (Part001.PollForAuthToken fuel env cR clientID clientSecret w1)
    as [[[tR [e|]] w2]|] eqn:HP; try discriminate H.
  injection H as <- <-.
  unfold Part001.PollForAuthToken, Part001.PollForAuthTokenContext in HP.
  destruct (part_001_poll_outcomes _ _ _ _ _ _ _ _ _ HP)
    as [(wa & tok & HR & Hr) | [(wa & tok & e1 & _ & _ & Hr) | Hr]];
    try discriminate Hr.
  injection Hr as <-.
  exists clientID, c1, clientSecret, c2, cR, w1, tR, wa.
  split; [first [reflexivity | exact H1]|]. split; [first [exact H2 | reflexivity]|].
  split.
  { unfold input in H1, H2. cbn in H1, H2.
    destruct (Scan (stdin c)) as [t1 r1]. injection H1 as _ <-.
    cbn in H2. destruct (Scan r1) as [t2 r2]. injection H2 as _ <-. reflexivity. }
  split; [exact HG|]. split; [exact HR|].
  split; [exact (part_001_token_not_zero _ _ _ _ _ _ _ _ HR) | reflexivity].
Qed.


(** [main] linked with [part_001] on a terminal where "id" and "secret"
    are typed, with a server that answers the device-code request with
    the grant of 600 s and the first exchange with a token. *)
Lemma main_part_001_reports_exchanged_token_example :
  exists c' w',
    main_part_001 scan_lines unix_text 1
      (Scenario.scripted [Scenario.status 200 (Scenario.code_document "600" "5");
                          Scenario.status 200 Scenario.token_document])
      (mkConsole ["id"; "secret"]%string EmptyString) world0
      = Some ((Returned, c'), w') /\
    stdout c' = ((("Please enter your app's client id: "
                   ++ "Please enter your app's client secret: ")
                  ++ ("Please visit https://trakt.tv/activate"
                      ++ " and enter the following code: 5055CC52" ++ newline))
                 ++ token_report unix_text Scenario.the_token)%string.
Proof.
  eexists _, _. split; [vm_compute; reflexivity|].
  destruct (main_part_001_reports_exchanged_token scan_lines unix_text 1
              (Scenario.scripted [Scenario.status 200 (Scenario.code_document "600" "5");
                                  Scenario.status 200 Scenario.token_document])
              (mkConsole ["id"; "secret"]%string EmptyString) _ world0 _
              ltac:(vm_compute; reflexivity))
    as (clientID & c1 & clientSecret & c2 & cR & w1 & tR & wa & _ & _ & _ & _ & _ & _ & Hout).
  vm_compute. reflexivity.
Defined.


(* ================================================================= *)
(** ** The poll of [part_001]: bodies and the final instant *)

Lemma select_live_bodies (env : Env) (ctx : Context) (dur : Duration) (w : World) :
  live_bodies (snd (select env ctx dur w)) = live_bodies w.
Proof.
  unfold select. destruct (done_at ctx); [|reflexivity].
  each_case; reflexivity.
Qed.

Lemma part_001_exchange_live (env : Env) (ctx : Context) (codeResp : CodeResponse.t)
    (clientID clientSecret : string) (w : World) :
  live_bodies (snd (Part001.RequestTokenContext env ctx codeResp clientID clientSecret w))
    = live_bodies w.
Proof.
  unfold Part001.RequestTokenContext.
  destruct (NewRequestWithContext env "POST" _ _) as [err|req]; [reflexivity|].
  match goal with
  | |- context [Do ?e ?c ?r ?w] =>
      pose proof (Do_live_bodies e c r w) as HD;
      destruct (Do e c r w) as [[err|resp] w1]; [exact HD|]
  end.
  apply deferred_Close_live; [exact HD|]; intros w2.
  each_case; try reflexivity.
  destruct (ReadAll resp) as [b [e|]]; try reflexivity.
  destruct (Unmarshal.internalTokenResponse_ b _) as [x [e|]]; reflexivity.
Qed.

(** However many attempts it makes and however it ends, the poll of
    [part_001] leaves no response body open: as many are open when it
    returns as when it was called. *)
Theorem part_001_poll_leaves_no_body (fuel : nat) (env : Env) (ctx : Context)
    (codeResp : CodeResponse.t) (clientID clientSecret : string) (w w' : World)
    (r : TokenResponse.t * error) :
  Part001.PollForAuthTokenContext fuel env ctx codeResp clientID clientSecret w
    = Some (r, w') ->
  live_bodies w' = live_bodies w.
Proof.
  unfold Part001.PollForAuthTokenContext.
  generalize (WithDeadline ctx (Part001.poll_deadline codeResp w)). intros ctx'.
  revert w. induction fuel as [|fuel IH]; intros w H; [discriminate H|].
  cbn [Part001.poll_loop] in H.
  pose proof (select_live_bodies env ctx' (seconds (CodeResponse.Interval codeResp)) w) as Hs.
  destruct (select env ctx' _ w) as [[|] w1]; cbn [snd] in Hs.
  - pose proof (part_001_exchange_live env ctx' codeResp clientID clientSecret w1) as He.
    destruct (Part001.RequestTokenContext env ctx' codeResp clientID clientSecret w1)
      as [[resp err] w2]. cbn [snd] in He.
    destruct err as [e|].
    + destruct (negb (errors_Is (Some e) ErrDeviceCodeUnclaimed)).
      * injection H as _ <-. congruence.
      * rewrite (IH _ H). congruence.
    + injection H as _ <-. congruence.
  - injection H as _ <-. exact Hs.
Qed.

Lemma part_001_poll_leaves_no_body_example :
  live_bodies (mkWorld 15300000000
                 (map (fun t => (t, api_request "https://api.trakt.tv/oauth/device/token"
                                   ("{" ++ quoted "code" ++ ": " ++ quoted "abc"
                                    ++ ", " ++ quoted "client_id" ++ ": " ++ quoted "id"
                                    ++ ", " ++ quoted "client_secret" ++ ": " ++ quoted "secret"
                                    ++ "}")%string))
                      [5000000000; 10100000000; 15200000000]) 0 3)
    = live_bodies world0.
Proof.
  apply (part_001_poll_leaves_no_body 3
           (Scenario.scripted [Scenario.status 400 ""; Scenario.status 400 "";
                               Scenario.status 200 Scenario.token_document])
           Background Scenario.grant "id" "secret" world0 _ (Scenario.the_token, None)).
  vm_compute. reflexivity.
Defined.







(* ================================================================= *)
(** ** The exchange of [traktdeviceauth.go]: the body on an error status *)

(** In [traktdeviceauth.go] every exchange that is answered with a
    status other than 200 leaves the body of the response open: one
    more body is open when it returns than when it was called. Answered
    200 it closes the body, whether the body decodes or not. *)
Theorem TraktDeviceAuthGo_exchange_closes_only_on_200 (env : Env) (ctx : Context)
    (w : World) (resp : Response) (codeResp : CodeResponse.t)
    (clientID clientSecret : string) :
  responds env ctx w resp ->
  live_bodies (snd (TraktDeviceAuthGo.RequestTokenContext env ctx codeResp clientID
                      clientSecret w))
    = if StatusCode resp =? 200 then live_bodies w else S (live_bodies w).
Proof.
  intros Hr. pose proof Hr as (Hurl & _ & _).
  unfold TraktDeviceAuthGo.RequestTokenContext.
  rewrite NewRequest_parses by assumption.
  rewrite (Do_responds _ _ _ _ _ Hr).
  destruct (StatusCode resp =? 200).
  - destruct (ReadAll resp) as [b [e|]]; [reflexivity|].
    destruct (Unmarshal.internalTokenResponse_ b _) as [x [e|]]; reflexivity.
  - each_case; reflexivity.
Qed.

Lemma TraktDeviceAuthGo_exchange_closes_only_on_200_example :
  live_bodies (snd (TraktDeviceAuthGo.RequestTokenContext
                      (Scenario.scripted [Scenario.status 429 ""]) Background
                      Scenario.grant "id" "secret" world0))
    = 1%nat.
Proof.
  apply (TraktDeviceAuthGo_exchange_closes_only_on_200
           (Scenario.scripted [Scenario.status 429 ""]) Background world0
           (mkResponse 429 (Bytes "")) Scenario.grant "id" "secret").
  unfold responds. split; [reflexivity | split; [reflexivity | exact (fun _ => I)]].
Defined.
